(** * WebHDFS request layer (src/webhdfs/request.c)

    A shallow embedding of the request lifecycle of the WebHDFS client:
    building the target URL, driving the (possibly two-phase) HTTP
    exchange through libcurl, the two streaming callbacks and the JSON
    decoding of the response.

    C integers are [Z]; [size_t] products wrap modulo [2^64].  C strings
    and byte blocks are [string] (a list of 8-bit characters).  The
    request is passed by pointer in the source and mutated in place: the
    model threads it through a [world] together with the standard error
    stream and a trace of what the transport engine did. *)

From Stdlib Require Import ZArith String Ascii List Bool Lia.
From Stdlib Require Import DecimalString.
Import ListNotations.

Local Open Scope string_scope.
Local Open Scope Z_scope.

(** ** Strings as the C code sees them *)

Module CStr.

(** Length of a block of bytes, as a C integer. *)
Definition len (s : string) : Z := Z.of_nat (String.length s).

(** What a [%s] or a [const char *] consumer reads from a block of
    bytes: everything before the first NUL. *)
Fixpoint c_str (s : string) : string :=
  match s with
  | EmptyString => EmptyString
  | String c rest =>
      if Ascii.eqb c Ascii.zero then EmptyString else String c (c_str rest)
  end.

(** [p + 1] on a [const char *]: the string without its first byte.
    On the empty string the C expression points past the terminator:
    no string of [p] lies there. *)
Definition plus1 (p : string) : option string :=
  match p with
  | EmptyString => None
  | String _ rest => Some rest
  end.

(** The first [n] bytes at [ptr]. *)
Definition take (n : Z) (ptr : string) : string :=
  substring 0 (Z.to_nat n) ptr.

(** [%d] applied to an [int]. *)
Definition decimal (d : Z) : string := NilZero.string_of_int (Z.to_int d).

(** Does [needle] occur somewhere in [hay]? *)
Fixpoint contains (needle hay : string) : bool :=
  prefix needle hay ||
  match hay with
  | EmptyString => false
  | String _ rest => contains needle rest
  end.

End CStr.

(** ** printf-style formatting *)

(** One variadic argument. *)
Inductive va_arg : Type :=
| va_str (s : string)
| va_int (d : Z).

Definition va_list := list va_arg.

(** ** The growable buffer *)

(** Modelled from the spec: the growable byte buffer (buffer.c and its
    declarations in webhdfs_p.h are not part of the sources at hand).
    The contract reads: open and close acquire and release the backing
    storage; clear resets the length and keeps the capacity; append raw
    bytes and append formatted text fail on allocation failure; the
    current contents and length are exposed for read access.

    [blob] is the current contents (the bytes within the length),
    [size] its length, [capacity] the storage held.  Growth beyond the
    capacity asks the allocator; a refused request leaves the buffer as
    it was and is reported by a non-zero code.

    The source also reads the storage through the raw pointer, as a C
    string (lines 121, 179, 199).  Clear resets the length only, so
    the storage keeps what it held, and the source relies on the
    storage being terminated after the contents once something was
    appended.  [behind] is the C string that lies in the storage while
    the length is 0: [None] while there is no storage (a NULL pointer),
    and after a clear the text that was readable before it. *)
Record buffer_t : Type := mk_buffer {
  blob : string;
  capacity : Z;
  behind : option string
}.

Definition size (b : buffer_t) : Z := CStr.len (blob b).

(** What a reader of the raw pointer [blob] finds, as a C string. *)
Definition blob_ptr (b : buffer_t) : option string :=
  if size b =? 0 then behind b else Some (CStr.c_str (blob b)).

(** What [%s] prints for the raw pointer (the C library prints
    [(null)] for NULL). *)
Definition blob_text (b : buffer_t) : string :=
  match blob_ptr b with
  | Some text => text
  | None => "(null)"
  end.

Definition buffer_open (b : buffer_t) : buffer_t :=
  {| blob := EmptyString; capacity := 0; behind := None |}.

Definition buffer_clear (b : buffer_t) : buffer_t :=
  {| blob := EmptyString; capacity := capacity b; behind := blob_ptr b |}.

Definition buffer_close (b : buffer_t) : buffer_t :=
  {| blob := EmptyString; capacity := 0; behind := None |}.

Section Environment.

(** The formatting of the C library, for what lies outside the
    directives spelled out below. *)
Variable libc_format : string -> va_list -> string.

(** The text produced by a format string: [%s] and [%d] consume one
    argument each, [%%] prints a percent sign, every other byte is
    copied.  From any other directive on, and from a directive whose
    argument is missing or of the other kind (undefined in C), the text
    is whatever the C library makes of the rest of the format and the
    remaining arguments. *)
Fixpoint vsprintf (frmt : string) (ap : va_list) : string :=
  match frmt with
  | EmptyString => EmptyString
  | String "%" (String "s" rest) =>
      match ap with
      | va_str s :: ap' => s ++ vsprintf rest ap'
      | _ => libc_format frmt ap
      end
  | String "%" (String "d" rest) =>
      match ap with
      | va_int d :: ap' => CStr.decimal d ++ vsprintf rest ap'
      | _ => libc_format frmt ap
      end
  | String "%" (String "%" rest) => String "%" (vsprintf rest ap)
  | String "%" _ => libc_format frmt ap
  | String c rest => String c (vsprintf rest ap)
  end.

(** [snprintf(dst, size, frmt, ...)]: at most [size - 1] bytes and the
    terminator are stored. *)
Definition snprintf (size : Z) (frmt : string) (ap : va_list) : string :=
  CStr.take (size - 1) (vsprintf frmt ap).

(** What a read past the terminator of an empty path argument finds
    (see [webhdfs_req_open]); nothing is known of it. *)
Variable past_terminator : string.

(** Whether the allocator grants a block of the given number of bytes. *)
Variable alloc_ok : Z -> bool.

(** The code by which a buffer operation reports failure. *)
Variable ENOMEM : Z.
Hypothesis ENOMEM_nonzero : ENOMEM <> 0.

Definition buffer_append (b : buffer_t) (ptr : string) (n : Z)
  : Z * buffer_t :=
  let need := size b + n in
  let contents := blob b ++ CStr.take n ptr in
  if need <=? capacity b then
    (0, {| blob := contents; capacity := capacity b;
           behind := Some (CStr.c_str contents) |})
  else if alloc_ok need then
    (0, {| blob := contents; capacity := need;
           behind := Some (CStr.c_str contents) |})
  else (ENOMEM, b).

Definition buffer_append_vformat (b : buffer_t) (frmt : string) (ap : va_list)
  : Z * buffer_t :=
  let text := vsprintf frmt ap in
  buffer_append b text (CStr.len text).

Definition buffer_append_format := buffer_append_vformat.

(** ** Configuration and request *)

(** The fields of [webhdfs_conf_t] that the request layer reads.  A
    [char *] that may be NULL is an [option]. *)
Record webhdfs_conf_t : Type := mk_conf {
  use_ssl : Z;
  hdfs_host : string;
  webhdfs_port : Z;
  hdfs_user : option string;
  token : option string
}.

Record webhdfs_t : Type := mk_fs { conf : webhdfs_conf_t }.

(** The caller's state behind the [void *user_data] of an upload. *)
Variable user_data : Type.

(** An upload producer [f(ptr, n, user_data)]: the value it returns, the
    bytes it stored at [ptr] and the caller's state afterwards. *)
Definition webhdfs_upload_t : Type :=
  Z -> option user_data -> Z * string * option user_data.

Record webhdfs_req_t : Type := mk_req {
  buffer : buffer_t;
  upload : option webhdfs_upload_t;
  upload_data : option user_data;
  rcode : Z
}.

Definition set_buffer (req : webhdfs_req_t) (b : buffer_t) : webhdfs_req_t :=
  {| buffer := b; upload := upload req;
     upload_data := upload_data req; rcode := rcode req |}.

(** Modelled from the spec: the operation kind, a closed enumeration
    (the WEBHDFS_REQ_ constants are declared in a header that is not
    part of the sources at hand). *)
Inductive webhdfs_req_type : Type :=
| WEBHDFS_REQ_GET
| WEBHDFS_REQ_PUT
| WEBHDFS_REQ_POST
| WEBHDFS_REQ_DELETE.

(** ** Request builder *)

Definition webhdfs_req_open (req : webhdfs_req_t) (fs : webhdfs_t)
  (path : option string) : Z * webhdfs_req_t :=
  let conf := conf fs in
  let req := set_buffer req (buffer_open (buffer req)) in
  (* No upload by default *)
  let req :=
    {| buffer := buffer req; upload := None; upload_data := None;
       rcode := rcode req |} in
  (* Fill URL *)
  let b := buffer_clear (buffer req) in
  let '(r, b) :=
    buffer_append_format b "%s://%s:%d/webhdfs/v1/%s?"
      [va_str (if use_ssl conf =? 0 then "http" else "https");
       va_str (hdfs_host conf); va_int (webhdfs_port conf);
       va_str (match path with
               | Some p =>
                   match CStr.plus1 p with
                   | Some rest => rest
                   | None => past_terminator
                   end
               | None => EmptyString
               end)] in
  let '(r, b) :=
    match hdfs_user conf with
    | Some user =>
        let '(r', b) := buffer_append_format b "user.name=%s&" [va_str user] in
        (Z.lor r r', b)
    | None => (r, b)
    end in
  let '(r, b) :=
    match token conf with
    | Some tok =>
        let '(r', b) := buffer_append_format b "delegation=%s&" [va_str tok] in
        (Z.lor r r', b)
    | None => (r, b)
    end in
  (r, set_buffer req b).

Definition webhdfs_req_close (req : webhdfs_req_t) : webhdfs_req_t :=
  set_buffer req (buffer_close (buffer req)).

Definition webhdfs_req_set_args (req : webhdfs_req_t) (frmt : string)
  (ap : va_list) : Z * webhdfs_req_t :=
  let r := 0 in
  let '(_, b) := buffer_append_vformat (buffer req) frmt ap in
  (r, set_buffer req b).

Definition webhdfs_req_set_upload (req : webhdfs_req_t)
  (func : option webhdfs_upload_t) (data : option user_data)
  : Z * webhdfs_req_t :=
  (0, {| buffer := buffer req; upload := func; upload_data := data;
         rcode := rcode req |}).

(** ** Streaming bridge *)

Definition SIZE_MAX : Z := 2 ^ 64 - 1.

(** [size * nitems] on [size_t]. *)
Definition size_mul (a b : Z) : Z := (a * b) mod (SIZE_MAX + 1).

Definition __webhdfs_req_write (ptr : string) (size nitems : Z)
  (req : webhdfs_req_t) : Z * webhdfs_req_t :=
  let n := size_mul size nitems in
  let '(r, b) := buffer_append (buffer req) ptr n in
  if negb (r =? 0) then (0, set_buffer req b)
  else (n, set_buffer req b).

(** The adapter returns the producer's value; the second component is
    what now lies at [ptr]. *)
Definition __webhdfs_req_read (size nitems : Z) (req : webhdfs_req_t)
  : Z * string * webhdfs_req_t :=
  match upload req with
  | None => (0, EmptyString, req)
  | Some f =>
      let '(n, bytes, data) := f (size_mul size nitems) (upload_data req) in
      (n, bytes, {| buffer := buffer req; upload := upload req;
                    upload_data := data; rcode := rcode req |})
  end.

(** ** The transport engine (libcurl), as far as the request layer uses it *)

Inductive write_callback : Type :=
| default_fwrite           (* libcurl's own: write to the FILE given as data *)
| cb_webhdfs_req_write.    (* the inbound adapter *)

Inductive read_callback : Type :=
| default_fread            (* libcurl's own: read from the FILE given as data *)
| cb_webhdfs_req_read.     (* the outbound adapter *)

Inductive callback_data : Type :=
| data_req.                (* the request the call is about *)

Inductive CURLoption : Type :=
| CURLOPT_URL (url : option string)
| CURLOPT_VERBOSE (v : Z)
| CURLOPT_FOLLOWLOCATION (v : Z)
| CURLOPT_WRITEFUNCTION (f : write_callback)
| CURLOPT_WRITEDATA (d : callback_data)
| CURLOPT_HTTPGET (v : Z)
| CURLOPT_CUSTOMREQUEST (m : string)
| CURLOPT_HTTPHEADER (headers : list string)
| CURLOPT_READFUNCTION (f : read_callback)
| CURLOPT_READDATA (d : callback_data)
| CURLOPT_PUT (v : Z)
| CURLOPT_POST (v : Z).

(** An easy handle: the options set so far, latest first, and what the
    last transfer left for [curl_easy_getinfo]. *)
Record CURL : Type := mk_curl {
  options : list CURLoption;
  CURLINFO_REDIRECT_URL : option string;
  CURLINFO_RESPONSE_CODE : Z;
  performed : nat
}.

Definition fresh_handle : CURL :=
  {| options := []; CURLINFO_REDIRECT_URL := None;
     CURLINFO_RESPONSE_CODE := 0; performed := 0 |}.

Definition curl_easy_setopt (curl : CURL) (o : CURLoption) : CURL :=
  {| options := o :: options curl;
     CURLINFO_REDIRECT_URL := CURLINFO_REDIRECT_URL curl;
     CURLINFO_RESPONSE_CODE := CURLINFO_RESPONSE_CODE curl;
     performed := performed curl |}.

(** The value in force for an option is the one set last. *)
Fixpoint url_of (os : list CURLoption) : option string :=
  match os with
  | [] => None
  | CURLOPT_URL u :: _ => u
  | _ :: os' => url_of os'
  end.

Fixpoint followlocation_of (os : list CURLoption) : Z :=
  match os with
  | [] => 0
  | CURLOPT_FOLLOWLOCATION v :: _ => v
  | _ :: os' => followlocation_of os'
  end.

Fixpoint writefunction_of (os : list CURLoption) : write_callback :=
  match os with
  | [] => default_fwrite
  | CURLOPT_WRITEFUNCTION f :: _ => f
  | _ :: os' => writefunction_of os'
  end.

Fixpoint readfunction_of (os : list CURLoption) : read_callback :=
  match os with
  | [] => default_fread
  | CURLOPT_READFUNCTION f :: _ => f
  | _ :: os' => readfunction_of os'
  end.

(** What the engine does during one transfer: it hands received bytes
    to the write callback and asks the read callback for body bytes, on
    its own schedule. *)
Inductive engine_action : Type :=
| Deliver (bytes : string)
| Pull (max : Z).

(** One transfer as the engine and the network decide it: the callback
    schedule, the result code when no callback aborts, and what
    [curl_easy_getinfo] reports afterwards. *)
Record transfer : Type := mk_transfer {
  actions : list engine_action;
  result : Z;
  redirect_url : option string;
  response_code : Z
}.

(** Whether [curl_easy_init] yields a handle. *)
Variable curl_easy_init_ok : bool.

(** The engine and the network behind it. *)
Variable network : CURL -> transfer.

Variable curl_easy_strerror : Z -> string.

Definition CURLE_OK : Z := 0.
Definition CURLE_WRITE_ERROR : Z := 23.

(** ** Observations *)

Inductive event : Type :=
| EvPerform (curl : CURL)
    (* a transfer starts on the handle as configured *)
| EvWrite (ptr : string) (size nitems ret : Z)
    (* the inbound adapter ran and returned [ret] *)
| EvRead (url : option string) (size nitems ret : Z)
    (* the outbound adapter ran during a transfer to [url] *)
| EvGetRedirect (url : option string).
    (* the redirect target was read from the handle *)

Record world : Type := mk_world {
  w_req : webhdfs_req_t;
  w_stderr : list string;
  w_trace : list event
}.

Definition emit (e : event) (w : world) : world :=
  {| w_req := w_req w; w_stderr := w_stderr w; w_trace := w_trace w ++ [e] |}.

Definition put_req (req : webhdfs_req_t) (w : world) : world :=
  {| w_req := req; w_stderr := w_stderr w; w_trace := w_trace w |}.

Definition fprintf_stderr (line : string) (w : world) : world :=
  {| w_req := w_req w; w_stderr := w_stderr w ++ [line];
     w_trace := w_trace w |}.

Definition newline : string := String (ascii_of_nat 10) EmptyString.

(** The engine runs its schedule against the callbacks registered on
    the handle.  A write callback that returns anything but the number
    of bytes it was given aborts the transfer with CURLE_WRITE_ERROR.
    The engine passes its chunks with [size = 1]. *)
Fixpoint run_callbacks (curl : CURL) (acts : list engine_action) (w : world)
  : option Z * world :=
  match acts with
  | [] => (None, w)
  | Deliver bytes :: rest =>
      match writefunction_of (options curl) with
      | cb_webhdfs_req_write =>
          let '(ret, req) :=
            __webhdfs_req_write bytes 1 (CStr.len bytes) (w_req w) in
          let w := emit (EvWrite bytes 1 (CStr.len bytes) ret)
                     (put_req req w) in
          if ret =? CStr.len bytes then run_callbacks curl rest w
          else (Some CURLE_WRITE_ERROR, w)
      | default_fwrite => run_callbacks curl rest w
      end
  | Pull max :: rest =>
      match readfunction_of (options curl) with
      | cb_webhdfs_req_read =>
          let '(ret, _, req) := __webhdfs_req_read 1 max (w_req w) in
          let w := emit (EvRead (url_of (options curl)) 1 max ret)
                     (put_req req w) in
          run_callbacks curl rest w
      | default_fread => run_callbacks curl rest w
      end
  end.

Definition curl_easy_perform (curl : CURL) (w : world) : Z * CURL * world :=
  let t := network curl in
  let '(aborted, w) := run_callbacks curl (actions t) (emit (EvPerform curl) w) in
  let err := match aborted with Some e => e | None => result t end in
  (err,
   {| options := options curl;
      CURLINFO_REDIRECT_URL := redirect_url t;
      CURLINFO_RESPONSE_CODE := response_code t;
      performed := S (performed curl) |},
   w).

(** ** Transport executor *)

Definition set_rcode (req : webhdfs_req_t) (code : Z) : webhdfs_req_t :=
  {| buffer := buffer req; upload := upload req;
     upload_data := upload_data req; rcode := code |}.

Definition clear_req_buffer (w : world) : world :=
  put_req (set_buffer (w_req w) (buffer_clear (buffer (w_req w)))) w.

Definition curl_slist_append (l : list string) (s : string) : list string :=
  l ++ [s].

(** [error] is what [*error] holds before the call; the second
    component of the result is what it holds afterwards.  The third is
    the request and the observations at return. *)
Definition webhdfs_req_exec (req : webhdfs_req_t) (type : webhdfs_req_type)
  (error : option string) : Z * option string * world :=
  let w := {| w_req := req; w_stderr := []; w_trace := [] |} in
  if negb curl_easy_init_ok then (1, error, w)
  else
    let curl := fresh_handle in
    let curl :=
      curl_easy_setopt curl
        (CURLOPT_URL (blob_ptr (buffer (w_req w)))) in
    let w := clear_req_buffer w in
    let curl := curl_easy_setopt curl (CURLOPT_VERBOSE 0) in
    let curl :=
      curl_easy_setopt curl
        (CURLOPT_FOLLOWLOCATION
           (match upload (w_req w) with None => 1 | Some _ => 0 end)) in
    let curl :=
      curl_easy_setopt curl (CURLOPT_WRITEFUNCTION cb_webhdfs_req_write) in
    let curl := curl_easy_setopt curl (CURLOPT_WRITEDATA data_req) in
    let curl :=
      match type with
      | WEBHDFS_REQ_GET => curl_easy_setopt curl (CURLOPT_HTTPGET 1)
      | WEBHDFS_REQ_PUT => curl_easy_setopt curl (CURLOPT_CUSTOMREQUEST "PUT")
      | WEBHDFS_REQ_POST => curl_easy_setopt curl (CURLOPT_CUSTOMREQUEST "POST")
      | WEBHDFS_REQ_DELETE =>
          curl_easy_setopt curl (CURLOPT_CUSTOMREQUEST "DELETE")
      end in
    (* Upload Require two steps *)
    let '(curl, w) :=
      match upload (w_req w) with
      | Some _ =>
          let '(err, curl, w) := curl_easy_perform curl w in
          let w :=
            if err =? 0 then w
            else fprintf_stderr (curl_easy_strerror err ++ newline) w in
          let url := CURLINFO_REDIRECT_URL curl in
          let w := emit (EvGetRedirect url) w in
          let curl := curl_easy_setopt curl (CURLOPT_URL url) in
          let headers := curl_slist_append [] "Transfer-Encoding: chunked" in
          let curl := curl_easy_setopt curl (CURLOPT_HTTPHEADER headers) in
          let curl :=
            curl_easy_setopt curl (CURLOPT_READFUNCTION cb_webhdfs_req_read) in
          let curl := curl_easy_setopt curl (CURLOPT_READDATA data_req) in
          let curl :=
            match type with
            | WEBHDFS_REQ_PUT => curl_easy_setopt curl (CURLOPT_PUT 1)
            | WEBHDFS_REQ_POST => curl_easy_setopt curl (CURLOPT_POST 1)
            | _ => curl
            end in
          (curl, w)
      | None => (curl, w)
      end in
    let w := clear_req_buffer w in
    let '(err, curl, w) := curl_easy_perform curl w in
    let error :=
      if err =? 0 then error
      else if alloc_ok 512 then
        Some (snprintf 512 "%s (url: %s)"
                [va_str (curl_easy_strerror err);
                 va_str (blob_text (buffer (w_req w)))])
      else None in
    let w := put_req (set_rcode (w_req w) (CURLINFO_RESPONSE_CODE curl)) w in
    ((if err =? 0 then 0 else 1), error, w).

(** ** Response decoder *)

(** The navigable tree of the JSON parser. *)
Variable yajl_val : Type.

(** [yajl_tree_parse]: the tree, or NULL together with the text it
    leaves in the caller's error buffer. *)
Variable yajl_tree_parse : string -> yajl_val + string.

(** The result and what is printed on the standard error stream. *)
Definition webhdfs_req_json_response (req : webhdfs_req_t)
  : option yajl_val * list string :=
  if size (buffer req) =? 0 then (None, [])
  else
    match yajl_tree_parse (CStr.c_str (blob (buffer req))) with
    | inl node => (Some node, [])
    | inr msg =>
        let err := CStr.take (1024 - 1) msg in
        (None, [vsprintf "response-parse: %s" [va_str err] ++ newline])
    end.

(** ** Reading an execution *)

(** What the inbound adapter took into the buffer, read off the
    observations. *)
Fixpoint accepted_bytes (evs : list event) : string :=
  match evs with
  | [] => EmptyString
  | EvWrite ptr _ _ ret :: evs' => CStr.take ret ptr ++ accepted_bytes evs'
  | _ :: evs' => accepted_bytes evs'
  end.

(** The observations a transfer on [curl] can add: runs of the inbound
    adapter, and runs of the outbound adapter only if it is registered
    on the handle, and then against the handle's target. *)
Definition callback_event_of (curl : CURL) (e : event) : Prop :=
  match e with
  | EvWrite _ _ _ _ => True
  | EvRead url _ _ _ =>
      readfunction_of (options curl) = cb_webhdfs_req_read
      /\ url = url_of (options curl)
  | _ => False
  end.

(** All the bytes a schedule delivers, in order. *)
Fixpoint delivered (acts : list engine_action) : string :=
  match acts with
  | [] => EmptyString
  | Deliver bytes :: rest => bytes ++ delivered rest
  | Pull _ :: rest => delivered rest
  end.

(** Every chunk of the schedule has a length that fits [size_t]. *)
Definition chunks_fit (acts : list engine_action) : bool :=
  forallb (fun a => match a with
                    | Deliver bytes => CStr.len bytes <=? SIZE_MAX
                    | Pull _ => true
                    end) acts.

(** The handle as it is configured when the first transfer starts. *)
Definition configured (req : webhdfs_req_t) (type : webhdfs_req_type) : CURL :=
  let curl := fresh_handle in
  let curl :=
    curl_easy_setopt curl
      (CURLOPT_URL (blob_ptr (buffer req))) in
  let curl := curl_easy_setopt curl (CURLOPT_VERBOSE 0) in
  let curl :=
    curl_easy_setopt curl
      (CURLOPT_FOLLOWLOCATION
         (match upload req with None => 1 | Some _ => 0 end)) in
  let curl :=
    curl_easy_setopt curl (CURLOPT_WRITEFUNCTION cb_webhdfs_req_write) in
  let curl := curl_easy_setopt curl (CURLOPT_WRITEDATA data_req) in
  match type with
  | WEBHDFS_REQ_GET => curl_easy_setopt curl (CURLOPT_HTTPGET 1)
  | WEBHDFS_REQ_PUT => curl_easy_setopt curl (CURLOPT_CUSTOMREQUEST "PUT")
  | WEBHDFS_REQ_POST => curl_easy_setopt curl (CURLOPT_CUSTOMREQUEST "POST")
  | WEBHDFS_REQ_DELETE => curl_easy_setopt curl (CURLOPT_CUSTOMREQUEST "DELETE")
  end.

(** The handle as it is re-targeted for the second transfer of an
    upload, from the handle the first transfer left. *)
Definition retargeted (type : webhdfs_req_type) (curl : CURL) : CURL :=
  let curl := curl_easy_setopt curl (CURLOPT_URL (CURLINFO_REDIRECT_URL curl)) in
  let headers := curl_slist_append [] "Transfer-Encoding: chunked" in
  let curl := curl_easy_setopt curl (CURLOPT_HTTPHEADER headers) in
  let curl :=
    curl_easy_setopt curl (CURLOPT_READFUNCTION cb_webhdfs_req_read) in
  let curl := curl_easy_setopt curl (CURLOPT_READDATA data_req) in
  match type with
  | WEBHDFS_REQ_PUT => curl_easy_setopt curl (CURLOPT_PUT 1)
  | WEBHDFS_REQ_POST => curl_easy_setopt curl (CURLOPT_POST 1)
  | _ => curl
  end.

(** How a call ends once the terminal transfer has returned [err]. *)
Definition finish (error : option string) (r : Z * CURL * world)
  : Z * option string * world :=
  let '(err, curl, w) := r in
  ((if err =? 0 then 0 else 1),
   (if err =? 0 then error
    else if alloc_ok 512 then
      Some (snprintf 512 "%s (url: %s)"
              [va_str (curl_easy_strerror err);
               va_str (blob_text (buffer (w_req w)))])
    else None),
   put_req (set_rcode (w_req w) (CURLINFO_RESPONSE_CODE curl)) w).

Definition start (req : webhdfs_req_t) : world :=
  clear_req_buffer {| w_req := req; w_stderr := []; w_trace := [] |}.

(** Whether one of the runs of the inbound adapter returned another
    count than the bytes it was handed, which makes the engine abort the
    transfer. *)
Definition write_aborted (evs : list event) : bool :=
  existsb (fun e => match e with
                    | EvWrite _ size nitems ret => negb (ret =? size * nitems)
                    | _ => false
                    end) evs.

(** The code [curl_easy_perform] returns for a transfer, given the
    callback runs that took place in it: the write error when the
    inbound adapter aborted it, otherwise what the engine reports. *)
Definition transfer_code (t : transfer) (evs : list event) : Z :=
  if write_aborted evs then CURLE_WRITE_ERROR else result t.

(** The number of runs of the inbound adapter. *)
Fixpoint write_runs (evs : list event) : nat :=
  match evs with
  | [] => 0%nat
  | EvWrite _ _ _ _ :: evs' => S (write_runs evs')
  | _ :: evs' => write_runs evs'
  end.

(** The handles of the transfers that were started, in order. *)
Fixpoint performs_of (evs : list event) : list CURL :=
  match evs with
  | [] => []
  | EvPerform h :: evs' => h :: performs_of evs'
  | _ :: evs' => performs_of evs'
  end.

(** The values the outbound adapter returned, in order. *)
Fixpoint read_returns (evs : list event) : list Z :=
  match evs with
  | [] => []
  | EvRead _ _ _ ret :: evs' => ret :: read_returns evs'
  | _ :: evs' => read_returns evs'
  end.

(** The producer called once for every pull of a schedule, each call
    on the state the previous one left: the values it returns and the
    state at the end. *)
Fixpoint drain (f : webhdfs_upload_t) (acts : list engine_action)
  (data : option user_data) : list Z * option user_data :=
  match acts with
  | [] => ([], data)
  | Deliver _ :: rest => drain f rest data
  | Pull max :: rest =>
      let '(n, _, data1) := f (size_mul 1 max) data in
      let '(ns, data2) := drain f rest data1 in
      (n :: ns, data2)
  end.

(** More options in force on a handle. *)
Fixpoint httpheader_of (os : list CURLoption) : list string :=
  match os with
  | [] => []
  | CURLOPT_HTTPHEADER l :: _ => l
  | _ :: os' => httpheader_of os'
  end.

Fixpoint customrequest_of (os : list CURLoption) : option string :=
  match os with
  | [] => None
  | CURLOPT_CUSTOMREQUEST m :: _ => Some m
  | _ :: os' => customrequest_of os'
  end.

Fixpoint httpget_of (os : list CURLoption) : Z :=
  match os with
  | [] => 0
  | CURLOPT_HTTPGET v :: _ => v
  | _ :: os' => httpget_of os'
  end.

Fixpoint put_of (os : list CURLoption) : Z :=
  match os with
  | [] => 0
  | CURLOPT_PUT v :: _ => v
  | _ :: os' => put_of os'
  end.

Fixpoint post_of (os : list CURLoption) : Z :=
  match os with
  | [] => 0
  | CURLOPT_POST v :: _ => v
  | _ :: os' => post_of os'
  end.

(** * Properties *)

(** ** Strings *)

Lemma str_append_assoc (a b c : string) : (a ++ b) ++ c = a ++ (b ++ c).
Proof. induction a as [|x a IH]; simpl; [reflexivity | now rewrite IH]. Qed.

Lemma str_append_nil_r (a : string) : a ++ EmptyString = a.
Proof. induction a as [|x a IH]; simpl; [reflexivity | now rewrite IH]. Qed.

Lemma str_substring_all (s : string) : substring 0 (String.length s) s = s.
Proof. induction s as [|x s IH]; simpl; [reflexivity | now rewrite IH]. Qed.

Lemma str_take_all (s : string) : CStr.take (CStr.len s) s = s.
Proof. unfold CStr.take, CStr.len. rewrite Nat2Z.id. apply str_substring_all. Qed.

Lemma str_prefix_append (a b : string) : prefix a (a ++ b) = true.
Proof.
  induction a as [|x a IH]; simpl; [now destruct b |].
  destruct (ascii_dec x x) as [_|N]; [exact IH | now elim N].
Qed.

Lemma str_prefix_take (n : nat) (a b : string) :
  prefix (substring 0 n a) (substring 0 n (a ++ b)) = true.
Proof.
  revert a; induction n as [|n IH]; intros [|x a]; cbn.
  - now destruct b.
  - reflexivity.
  - now destruct (substring 0 (S n) b).
  - destruct (ascii_dec x x) as [_|N]; [apply IH | now elim N].
Qed.

Lemma str_take_nonempty (n : nat) (s : string) :
  s <> EmptyString -> substring 0 (S n) s <> EmptyString.
Proof. destruct s; [intros H; now elim H | discriminate]. Qed.


(** ** The buffer *)

Lemma buffer_append_cases (b : buffer_t) (ptr : string) (n : Z) :
  (exists c, buffer_append b ptr n
             = (0, {| blob := blob b ++ CStr.take n ptr; capacity := c;
                   behind := Some (CStr.c_str (blob b ++ CStr.take n ptr)) |}))
  \/ buffer_append b ptr n = (ENOMEM, b).
Proof.
  unfold buffer_append.
  destruct (size b + n <=? capacity b); [left; eauto |].
  destruct (alloc_ok (size b + n)); [left; eauto | now right].
Qed.

Lemma buffer_append_vformat_cases (b : buffer_t) (frmt : string) (ap : va_list) :
  (exists c, buffer_append_vformat b frmt ap
             = (0, {| blob := blob b ++ vsprintf frmt ap; capacity := c;
                   behind := Some (CStr.c_str (blob b ++ vsprintf frmt ap)) |}))
  \/ buffer_append_vformat b frmt ap = (ENOMEM, b).
Proof.
  unfold buffer_append_vformat.
  destruct (buffer_append_cases b (vsprintf frmt ap) (CStr.len (vsprintf frmt ap)))
    as [[c H]|H]; [left; exists c | now right].
  now rewrite H, str_take_all.
Qed.

Lemma buffer_append_granted (b : buffer_t) (ptr : string) (n : Z) :
  (forall k, alloc_ok k = true) ->
  exists c, buffer_append b ptr n
            = (0, {| blob := blob b ++ CStr.take n ptr; capacity := c;
                   behind := Some (CStr.c_str (blob b ++ CStr.take n ptr)) |}).
Proof.
  intros Hall. unfold buffer_append.
  destruct (size b + n <=? capacity b); [eauto |].
  rewrite Hall. eauto.
Qed.

Lemma buffer_append_vformat_granted (b : buffer_t) (frmt : string) (ap : va_list) :
  (forall k, alloc_ok k = true) ->
  exists c, buffer_append_vformat b frmt ap
            = (0, {| blob := blob b ++ vsprintf frmt ap; capacity := c;
                   behind := Some (CStr.c_str (blob b ++ vsprintf frmt ap)) |}).
Proof.
  intros Hall. unfold buffer_append_vformat.
  destruct (buffer_append_granted b (vsprintf frmt ap)
              (CStr.len (vsprintf frmt ap)) Hall) as [c H].
  exists c. now rewrite H, str_take_all.
Qed.

Lemma lor_ENOMEM_nonzero (r : Z) : Z.lor r ENOMEM <> 0.
Proof. intros H. apply Z.lor_eq_0_iff in H. now destruct H. Qed.

(** ** Request builder *)

Lemma buffer_append_vformat_ok (b b' : buffer_t) (frmt : string) (ap : va_list) :
  buffer_append_vformat b frmt ap = (0, b') ->
  blob b' = blob b ++ vsprintf frmt ap.
Proof.
  intros E.
  destruct (buffer_append_vformat_cases b frmt ap) as [[c H]|H];
    rewrite H in E; inversion E; subst; [reflexivity |].
  now elim ENOMEM_nonzero.
Qed.

Lemma buffer_append_vformat_granted_ok (b : buffer_t) (frmt : string)
  (ap : va_list) :
  (forall k, alloc_ok k = true) ->
  fst (buffer_append_vformat b frmt ap) = 0.
Proof.
  intros Hall.
  destruct (buffer_append_vformat_granted b frmt ap Hall) as [c H].
  now rewrite H.
Qed.

(** C2.  For every configuration and every path that begins with a
    slash, [webhdfs_req_open] succeeds whenever the allocator grants the
    buffer its growth, and whenever it succeeds the buffer holds
    scheme://host:port/webhdfs/v1/ followed by the path without its
    leading slash and a question mark, then user.name=USER& if a user
    is configured, then delegation=TOKEN& if a token is configured; the
    scheme is https exactly when the TLS flag is set (non-zero). *)
Theorem webhdfs_req_open_url (req : webhdfs_req_t) (fs : webhdfs_t) (p : string) :
  forall r req',
    webhdfs_req_open req fs (Some (String "/" p)) = (r, req') ->
    ((forall k, alloc_ok k = true) -> r = 0) /\
    (r = 0 ->
     blob (buffer req') =
       (if use_ssl (conf fs) =? 0 then "http" else "https")
       ++ "://" ++ hdfs_host (conf fs)
       ++ ":" ++ CStr.decimal (webhdfs_port (conf fs))
       ++ "/webhdfs/v1/" ++ p ++ "?"
       ++ match hdfs_user (conf fs) with
          | Some user => "user.name=" ++ user ++ "&"
          | None => EmptyString
          end
       ++ match token (conf fs) with
          | Some tok => "delegation=" ++ tok ++ "&"
          | None => EmptyString
          end).
Proof.
  intros r req'. unfold webhdfs_req_open, buffer_append_format.
  destruct fs as [[ssl host port user tok]]; cbn [conf use_ssl hdfs_host
    webhdfs_port hdfs_user token CStr.plus1 set_buffer buffer upload
    upload_data rcode].
  set (b0 := buffer_clear (buffer_open (buffer req))).
  set (a1 := [va_str (if ssl =? 0 then "http" else "https"); va_str host;
              va_int port; va_str p]).
  pose proof (@buffer_append_vformat_ok b0) as K1.
  pose proof (@buffer_append_vformat_granted_ok b0) as G1.
  specialize (K1) with (frmt := "%s://%s:%d/webhdfs/v1/%s?") (ap := a1).
  specialize (G1 "%s://%s:%d/webhdfs/v1/%s?" a1).
  destruct (buffer_append_vformat b0 "%s://%s:%d/webhdfs/v1/%s?" a1)
    as [r1 b1].
  assert (U : forall r0 bU,
            match user with
            | Some u =>
                let '(r', b) := buffer_append_vformat b1 "user.name=%s&" [va_str u] in
                (Z.lor r1 r', b)
            | None => (r1, b1)
            end = (r0, bU) ->
            ((forall k, alloc_ok k = true) -> r0 = 0) /\
            (r0 = 0 -> r1 = 0 /\
               blob bU = blob b1 ++ match user with
                                    | Some u => "user.name=" ++ u ++ "&"
                                    | None => EmptyString
                                    end)).
  { intros r0 bU. destruct user as [u|].
    - pose proof (@buffer_append_vformat_ok b1) as K2.
      pose proof (@buffer_append_vformat_granted_ok b1 "user.name=%s&" [va_str u]) as G2.
      specialize (K2) with (frmt := "user.name=%s&") (ap := [va_str u]).
      destruct (buffer_append_vformat b1 "user.name=%s&" [va_str u]) as [r2 b2].
      intros E; inversion E; subst; split.
      + intros Hall. cbn in G1, G2. now rewrite (G1 Hall), (G2 Hall).
      + intros H0. apply Z.lor_eq_0_iff in H0. destruct H0 as [-> ->].
        split; [reflexivity |]. now rewrite (K2 bU eq_refl).
    - intros E; inversion E; subst; split.
      + intros Hall. exact (G1 Hall).
      + intros ->. now rewrite str_append_nil_r. }
  destruct (match user with
            | Some u =>
                let '(r', b) := buffer_append_vformat b1 "user.name=%s&" [va_str u] in
                (Z.lor r1 r', b)
            | None => (r1, b1)
            end) as [r2 b2].
  specialize (U r2 b2 eq_refl). destruct U as [UG UK].
  assert (Fin : blob b0 = EmptyString) by reflexivity.
  assert (F1 : vsprintf "%s://%s:%d/webhdfs/v1/%s?" a1
               = (if ssl =? 0 then "http" else "https")
                 ++ "://" ++ host ++ ":" ++ CStr.decimal port
                 ++ "/webhdfs/v1/" ++ p ++ "?").
  { reflexivity. }
  destruct tok as [t|].
  - pose proof (@buffer_append_vformat_ok b2) as K3.
    pose proof (@buffer_append_vformat_granted_ok b2 "delegation=%s&" [va_str t]) as G3.
    specialize (K3) with (frmt := "delegation=%s&") (ap := [va_str t]).
    destruct (buffer_append_vformat b2 "delegation=%s&" [va_str t]) as [r3 b3].
    intros E; inversion E; subst; cbn [buffer set_buffer]; split.
    + intros Hall. cbn in G3. now rewrite (UG Hall), (G3 Hall).
    + intros H0. apply Z.lor_eq_0_iff in H0. destruct H0 as [H2 ->].
      destruct (UK H2) as [H1 B2].
      rewrite (K3 b3 eq_refl), B2, (K1 b1 (f_equal (fun x => (x, b1)) H1)),
        Fin, F1.
      cbn [vsprintf]. cbn [String.append].
      rewrite !str_append_assoc. cbn [String.append].
      rewrite !str_append_assoc. cbn [String.append].
      rewrite !str_append_assoc. cbn [String.append].
      rewrite !str_append_assoc. reflexivity.
  - intros E; inversion E; subst; cbn [buffer set_buffer]; split.
    + exact UG.
    + intros H2. destruct (UK H2) as [H1 B2].
      rewrite B2, (K1 b1 (f_equal (fun x => (x, b1)) H1)), Fin, F1.
      cbn [String.append].
      rewrite !str_append_assoc. cbn [String.append].
      rewrite !str_append_assoc. cbn [String.append].
      rewrite !str_append_assoc. cbn [String.append].
      rewrite !str_append_assoc. now rewrite !str_append_nil_r.
Qed.

(** ** Streaming bridge *)

Lemma set_buffer_same (req : webhdfs_req_t) : set_buffer req (buffer req) = req.
Proof. now destruct req. Qed.

(** C8.  The inbound adapter, given a chunk of [n = size * nitems]
    bytes: when the append to the request's buffer succeeds it returns
    exactly [n] and the buffer has grown by the chunk; when the append
    fails it returns 0 and the request is as before. *)
Theorem webhdfs_req_write_accepts (ptr : string) (size nitems : Z)
  (req : webhdfs_req_t) (r : Z) (b' : buffer_t) :
  buffer_append (buffer req) ptr (size_mul size nitems) = (r, b') ->
  (r = 0 ->
   __webhdfs_req_write ptr size nitems req
     = (size_mul size nitems, set_buffer req b') /\
   blob b' = blob (buffer req) ++ CStr.take (size_mul size nitems) ptr) /\
  (r <> 0 -> __webhdfs_req_write ptr size nitems req = (0, req)).
Proof.
  intros E. unfold __webhdfs_req_write. rewrite E. split.
  - intros ->. split; [reflexivity |].
    destruct (buffer_append_cases (buffer req) ptr (size_mul size nitems))
      as [[c H]|H]; rewrite H in E; inversion E; subst; [reflexivity |].
    now elim ENOMEM_nonzero.
  - intros Hr. apply Z.eqb_neq in Hr. rewrite Hr. cbn.
    destruct (buffer_append_cases (buffer req) ptr (size_mul size nitems))
      as [[c H]|H]; rewrite H in E; inversion E; subst.
    + now rewrite Z.eqb_refl in Hr.
    + now rewrite set_buffer_same.
Qed.

Lemma accepted_bytes_app (l1 l2 : list event) :
  accepted_bytes (l1 ++ l2)%list = accepted_bytes l1 ++ accepted_bytes l2.
Proof.
  induction l1 as [|e l1 IH]; [reflexivity |].
  destruct e; cbn; rewrite IH; try reflexivity.
  now rewrite str_append_assoc.
Qed.

Lemma webhdfs_req_write_effect (ptr : string) (size nitems : Z)
  (req : webhdfs_req_t) :
  let '(ret, req') := __webhdfs_req_write ptr size nitems req in
  blob (buffer req') = blob (buffer req) ++ CStr.take ret ptr
  /\ upload req' = upload req.
Proof.
  unfold __webhdfs_req_write.
  destruct (buffer_append_cases (buffer req) ptr (size_mul size nitems))
    as [[c H]|H]; rewrite H.
  - cbn. split; reflexivity.
  - apply Z.eqb_neq in ENOMEM_nonzero. rewrite ENOMEM_nonzero. cbn.
    split; [| reflexivity].
    unfold CStr.take; cbn. destruct ptr; cbn; now rewrite str_append_nil_r.
Qed.

Lemma webhdfs_req_read_effect (size nitems : Z) (req : webhdfs_req_t) :
  let '(_, _, req') := __webhdfs_req_read size nitems req in
  buffer req' = buffer req /\ upload req' = upload req.
Proof.
  unfold __webhdfs_req_read. destruct (upload req) as [f|] eqn:U.
  - destruct (f (size_mul size nitems) (upload_data req)) as [[n bytes] data].
    cbn. now split.
  - now split.
Qed.

Lemma run_callbacks_spec (curl : CURL) (acts : list engine_action) :
  forall (w w' : world) (aborted : option Z),
    run_callbacks curl acts w = (aborted, w') ->
    exists evs,
      w_trace w' = (w_trace w ++ evs)%list
      /\ w_stderr w' = w_stderr w
      /\ Forall (callback_event_of curl) evs
      /\ blob (buffer (w_req w')) = blob (buffer (w_req w)) ++ accepted_bytes evs
      /\ upload (w_req w') = upload (w_req w).
Proof.
  induction acts as [|a acts IH]; intros w w' aborted E; cbn in E.
  - inversion E; subst. exists []. rewrite app_nil_r, str_append_nil_r.
    repeat split; constructor.
  - destruct a as [bytes|max].
    + destruct (writefunction_of (options curl)); [now apply IH in E |].
      pose proof (webhdfs_req_write_effect bytes 1 (CStr.len bytes) (w_req w)) as W.
      destruct (__webhdfs_req_write bytes 1 (CStr.len bytes) (w_req w))
        as [ret req1]. destruct W as [Wb Wu].
      destruct (ret =? CStr.len bytes).
      * apply IH in E. destruct E as (evs & T & S & F & B & U). cbn in *.
        exists (EvWrite bytes 1 (CStr.len bytes) ret :: evs).
        rewrite T, <- app_assoc, B, Wb, str_append_assoc. cbn.
        repeat split; try assumption; try congruence.
        constructor; [exact I | assumption].
      * inversion E; subst; cbn.
        exists [EvWrite bytes 1 (CStr.len bytes) ret]. cbn.
        rewrite str_append_nil_r.
        repeat split; try assumption. constructor; [exact I | constructor].
    + destruct (readfunction_of (options curl)) eqn:R; [now apply IH in E |].
      pose proof (webhdfs_req_read_effect 1 max (w_req w)) as W.
      destruct (__webhdfs_req_read 1 max (w_req w)) as [[ret out] req1].
      destruct W as [Wb Wu].
      apply IH in E. destruct E as (evs & T & S & F & B & U). cbn in *.
      exists (EvRead (url_of (options curl)) 1 max ret :: evs).
      rewrite T, <- app_assoc, B, Wb. cbn.
      repeat split; try assumption; try congruence.
      constructor; [now split | assumption].
Qed.

Lemma size_mul_1 (n : Z) : 0 <= n <= SIZE_MAX -> size_mul 1 n = n.
Proof.
  intros H. unfold size_mul. rewrite Z.mul_1_l. apply Z.mod_small.
  unfold SIZE_MAX in *. lia.
Qed.

Lemma run_callbacks_granted (curl : CURL) (acts : list engine_action) :
  (forall k, alloc_ok k = true) ->
  writefunction_of (options curl) = cb_webhdfs_req_write ->
  chunks_fit acts = true ->
  forall (w w' : world) (aborted : option Z),
    run_callbacks curl acts w = (aborted, w') ->
    aborted = None
    /\ blob (buffer (w_req w')) = blob (buffer (w_req w)) ++ delivered acts.
Proof.
  intros Hall Hw. induction acts as [|a acts IH]; intros Hfit w w' aborted E;
    cbn in E.
  - inversion E; subst. now rewrite str_append_nil_r.
  - unfold chunks_fit in Hfit, IH. cbn [forallb] in Hfit.
    apply andb_true_iff in Hfit. destruct Hfit as [Ha Hfit].
    destruct a as [bytes|max].
    + rewrite Hw in E. apply Z.leb_le in Ha.
      unfold __webhdfs_req_write in E.
      rewrite size_mul_1 in E by (unfold CStr.len in *; lia).
      destruct (buffer_append_granted (buffer (w_req w)) bytes (CStr.len bytes)
                  Hall) as [c H].
      rewrite H in E. cbn in E. rewrite Z.eqb_refl in E.
      apply (IH Hfit) in E. destruct E as [-> E]. split; [reflexivity |].
      rewrite E. cbn. now rewrite str_take_all, str_append_assoc.
    + destruct (readfunction_of (options curl)).
      * now apply (IH Hfit) in E.
      * pose proof (webhdfs_req_read_effect 1 max (w_req w)) as W.
        destruct (__webhdfs_req_read 1 max (w_req w)) as [[ret out] req1].
        destruct W as [Wb _].
        apply (IH Hfit) in E. destruct E as [-> E]. split; [reflexivity |].
        rewrite E. cbn. now rewrite Wb.
Qed.

Lemma curl_easy_perform_granted (curl curl' : CURL) (w w' : world) (err : Z) :
  (forall k, alloc_ok k = true) ->
  writefunction_of (options curl) = cb_webhdfs_req_write ->
  chunks_fit (actions (network curl)) = true ->
  curl_easy_perform curl w = (err, curl', w') ->
  err = result (network curl)
  /\ blob (buffer (w_req w'))
     = blob (buffer (w_req w)) ++ delivered (actions (network curl)).
Proof.
  intros Hall Hw Hfit. unfold curl_easy_perform.
  destruct (run_callbacks curl (actions (network curl)) (emit (EvPerform curl) w))
    as [aborted w1] eqn:R.
  intros E; inversion E; subst; clear E.
  apply (run_callbacks_granted curl _ Hall Hw Hfit) in R.
  destruct R as [-> R]. split; [reflexivity | exact R].
Qed.

Lemma curl_easy_perform_spec (curl curl' : CURL) (w w' : world) (err : Z) :
  curl_easy_perform curl w = (err, curl', w') ->
  exists evs,
    w_trace w' = (w_trace w ++ EvPerform curl :: evs)%list
    /\ w_stderr w' = w_stderr w
    /\ Forall (callback_event_of curl) evs
    /\ blob (buffer (w_req w')) = blob (buffer (w_req w)) ++ accepted_bytes evs
    /\ upload (w_req w') = upload (w_req w)
    /\ options curl' = options curl
    /\ CURLINFO_REDIRECT_URL curl' = redirect_url (network curl)
    /\ CURLINFO_RESPONSE_CODE curl' = response_code (network curl).
Proof.
  unfold curl_easy_perform.
  destruct (run_callbacks curl (actions (network curl)) (emit (EvPerform curl) w))
    as [aborted w1] eqn:R.
  intros E; inversion E; subst; clear E.
  apply run_callbacks_spec in R. destruct R as (evs & T & S & F & B & U).
  exists evs. cbn in *. rewrite T, <- app_assoc. cbn.
  repeat split; assumption.
Qed.

(** ** Transport executor *)

Lemma configured_lookup (req : webhdfs_req_t) (type : webhdfs_req_type) :
  url_of (options (configured req type)) = blob_ptr (buffer req)
  /\ followlocation_of (options (configured req type))
      = match upload req with None => 1 | Some _ => 0 end
  /\ readfunction_of (options (configured req type)) = default_fread
  /\ writefunction_of (options (configured req type)) = cb_webhdfs_req_write.
Proof. destruct type; repeat split. Qed.

Lemma retargeted_lookup (type : webhdfs_req_type) (curl : CURL) :
  url_of (options (retargeted type curl)) = CURLINFO_REDIRECT_URL curl
  /\ followlocation_of (options (retargeted type curl))
      = followlocation_of (options curl)
  /\ readfunction_of (options (retargeted type curl)) = cb_webhdfs_req_read
  /\ writefunction_of (options (retargeted type curl))
      = writefunction_of (options curl).
Proof. destruct type; repeat split. Qed.

Lemma webhdfs_req_exec_plain (req : webhdfs_req_t) (type : webhdfs_req_type)
  (error : option string) :
  curl_easy_init_ok = true ->
  upload req = None ->
  webhdfs_req_exec req type error
  = finish error
      (curl_easy_perform (configured req type) (clear_req_buffer (start req))).
Proof.
  intros Hinit Hup. unfold webhdfs_req_exec, finish, start, configured.
  rewrite Hinit. cbn [negb].
  cbn [clear_req_buffer put_req w_req set_buffer upload]. rewrite Hup.
  destruct type; reflexivity.
Qed.

Lemma webhdfs_req_exec_upload (req : webhdfs_req_t) (type : webhdfs_req_type)
  (error : option string) (f : webhdfs_upload_t) :
  curl_easy_init_ok = true ->
  upload req = Some f ->
  webhdfs_req_exec req type error
  = let '(err1, curl1, w1) :=
      curl_easy_perform (configured req type) (start req) in
    let w1 :=
      if err1 =? 0 then w1
      else fprintf_stderr (curl_easy_strerror err1 ++ newline) w1 in
    let w1 := emit (EvGetRedirect (CURLINFO_REDIRECT_URL curl1)) w1 in
    finish error
      (curl_easy_perform (retargeted type curl1) (clear_req_buffer w1)).
Proof.
  intros Hinit Hup. unfold webhdfs_req_exec, finish, start, configured.
  rewrite Hinit. cbn [negb].
  cbn [clear_req_buffer put_req w_req set_buffer upload]. rewrite Hup.
  cbv zeta.
  destruct type;
    match goal with
    | |- context [curl_easy_perform ?h ?w] =>
        destruct (curl_easy_perform h w) as [[err1 curl1] w1]
    end; reflexivity.
Qed.

Lemma exec_shape_upload (req : webhdfs_req_t) (type : webhdfs_req_type)
  (error : option string) (f : webhdfs_upload_t) :
  curl_easy_init_ok = true ->
  upload req = Some f ->
  exists (h2 : CURL) (evs1 evs2 : list event) (err : Z) (w' : world),
    webhdfs_req_exec req type error
      = ((if err =? 0 then 0 else 1),
         (if err =? 0 then error
          else if alloc_ok 512 then
            Some (snprintf 512 "%s (url: %s)"
                    [va_str (curl_easy_strerror err);
                     va_str (blob_text (buffer (w_req w')))])
          else None),
         w')
    /\ w_trace w'
       = (EvPerform (configured req type) :: evs1
          ++ EvGetRedirect (redirect_url (network (configured req type)))
          :: EvPerform h2 :: evs2)%list
    /\ Forall (callback_event_of (configured req type)) evs1
    /\ Forall (callback_event_of h2) evs2
    /\ url_of (options h2) = redirect_url (network (configured req type))
    /\ followlocation_of (options h2) = 0
    /\ blob (buffer (w_req w')) = accepted_bytes evs2
    /\ rcode (w_req w') = response_code (network h2)
    /\ ((forall k, alloc_ok k = true) ->
        chunks_fit (actions (network h2)) = true ->
        err = result (network h2)
        /\ blob (buffer (w_req w')) = delivered (actions (network h2))).
Proof.
  intros Hinit Hup. rewrite (@webhdfs_req_exec_upload req type error f Hinit Hup).
  destruct (curl_easy_perform (configured req type) (start req))
    as [[err1 curl1] w1] eqn:P1.
  apply curl_easy_perform_spec in P1.
  destruct P1 as (evs1 & T1 & S1 & F1 & B1 & U1 & O1 & R1 & C1).
  cbv beta iota zeta.
  match goal with
  | |- context [curl_easy_perform ?h ?w] =>
      destruct (curl_easy_perform h w) as [[err2 curl2] w2] eqn:P2
  end.
  pose proof P2 as G2.
  apply curl_easy_perform_spec in P2.
  destruct P2 as (evs2 & T2 & S2 & F2 & B2 & U2 & O2 & R2 & C2).
  destruct (retargeted_lookup type curl1) as (L1 & L2 & L3 & L4).
  destruct (configured_lookup req type) as (K1 & K2 & K3 & K4).
  exists (retargeted type curl1), evs1, evs2, err2,
    (put_req (set_rcode (w_req w2) (CURLINFO_RESPONSE_CODE curl2)) w2).
  split; [reflexivity |].
  split.
  { cbn [w_trace put_req]. rewrite T2.
    destruct (err1 =? 0); cbn; rewrite T1, R1; cbn;
      rewrite <- app_assoc; reflexivity. }
  split; [exact F1 |]. split; [exact F2 |].
  split; [now rewrite L1, R1 |].
  split; [now rewrite L2, O1, K2, Hup |].
  split; [cbn; rewrite B2; reflexivity |].
  split; [cbn; exact C2 |].
  intros Hall Hfit.
  apply (curl_easy_perform_granted _ _ _ _ _ Hall) in G2;
    [| now rewrite L4, O1, K4 | exact Hfit].
  destruct G2 as [G2 G3]. split; [exact G2 |]. cbn. rewrite G3. reflexivity.
Qed.

Lemma exec_shape_plain (req : webhdfs_req_t) (type : webhdfs_req_type)
  (error : option string) :
  curl_easy_init_ok = true ->
  upload req = None ->
  exists (evs : list event) (err : Z) (w' : world),
    webhdfs_req_exec req type error
      = ((if err =? 0 then 0 else 1),
         (if err =? 0 then error
          else if alloc_ok 512 then
            Some (snprintf 512 "%s (url: %s)"
                    [va_str (curl_easy_strerror err);
                     va_str (blob_text (buffer (w_req w')))])
          else None),
         w')
    /\ w_trace w' = EvPerform (configured req type) :: evs
    /\ Forall (callback_event_of (configured req type)) evs
    /\ blob (buffer (w_req w')) = accepted_bytes evs
    /\ rcode (w_req w') = response_code (network (configured req type)).
Proof.
  intros Hinit Hup. rewrite (@webhdfs_req_exec_plain req type error Hinit Hup).
  destruct (curl_easy_perform (configured req type)
              (clear_req_buffer (start req))) as [[err curl] w] eqn:P.
  apply curl_easy_perform_spec in P.
  destruct P as (evs & T & S & F & B & U & O & R & C).
  exists evs, err, (put_req (set_rcode (w_req w) (CURLINFO_RESPONSE_CODE curl)) w).
  split; [reflexivity |].
  split; [cbn; rewrite T; reflexivity |].
  split; [exact F |].
  split; [cbn; rewrite B; reflexivity |].
  cbn. exact C.
Qed.

(** C9.  When the engine cannot create a handle, the call returns the
    error result 1 at once: no transfer was started, neither callback
    ran, nothing was printed, and the request and the caller's error
    pointer are as they were. *)
Theorem webhdfs_req_exec_init_failure (req : webhdfs_req_t)
  (type : webhdfs_req_type) (error : option string) :
  curl_easy_init_ok = false ->
  webhdfs_req_exec req type error
  = (1, error, {| w_req := req; w_stderr := []; w_trace := [] |}).
Proof. intros H. unfold webhdfs_req_exec. now rewrite H. Qed.

(** C1, as the code has it.  In every execution with an upload
    capability bound, the observations read: the first transfer,
    started on the handle that targets the text behind the buffer's
    pointer (the URL built in the buffer); in it only runs of the
    inbound adapter; then the retrieval of the redirect target; then
    the second transfer, started on a handle that targets that redirect
    target.  Every run of the outbound adapter lies in the second
    transfer and is against the redirect target the engine reported.
    Hence a run is against the URL the first transfer went to only if
    the engine names that very URL as the redirect target; the code
    does not compare the two. *)
Theorem upload_after_redirect (req : webhdfs_req_t) (type : webhdfs_req_type)
  (error : option string) (f : webhdfs_upload_t) :
  curl_easy_init_ok = true ->
  upload req = Some f ->
  exists (h1 h2 : CURL) (target : option string) (evs1 evs2 : list event),
    w_trace (snd (webhdfs_req_exec req type error))
      = (EvPerform h1 :: evs1
         ++ EvGetRedirect target :: EvPerform h2 :: evs2)%list
    /\ url_of (options h1) = blob_ptr (buffer req)
    /\ target = redirect_url (network h1)
    /\ url_of (options h2) = target
    /\ Forall (fun e => match e with EvWrite _ _ _ _ => True | _ => False end)
         evs1
    /\ Forall (fun e => match e with
                        | EvWrite _ _ _ _ => True
                        | EvRead url _ _ _ => url = target
                        | _ => False
                        end) evs2
    /\ (target <> url_of (options h1) ->
        Forall (fun e => match e with
                         | EvRead url _ _ _ => url <> url_of (options h1)
                         | _ => True
                         end) evs2).
Proof.
  intros Hinit Hup.
  destruct (exec_shape_upload req type error f Hinit Hup)
    as (h2 & evs1 & evs2 & err & w' & E & T & F1 & F2 & L & _).
  destruct (configured_lookup req type) as (K1 & K2 & K3 & K4).
  exists (configured req type), h2,
    (redirect_url (network (configured req type))), evs1, evs2.
  rewrite E. cbn [snd]. repeat split; try assumption.
  - eapply Forall_impl; [| exact F1].
    intros [ | | |] H; cbn in *; try exact H.
    destruct H as [H _]. rewrite K3 in H. discriminate.
  - eapply Forall_impl; [| exact F2].
    intros [ | | |] H; cbn in *; try exact H.
    destruct H as [_ H]. now rewrite H, L.
  - intros Hne. eapply Forall_impl; [| exact F2].
    intros [ | | |] H; cbn in *; try exact I.
    destruct H as [_ H]. rewrite H, L. exact Hne.
Qed.

(** C6.  In every execution, every transfer is started on a handle
    whose follow-redirects option is set (non-zero) if and only if the
    request has no upload capability; and at least one transfer is
    started. *)
Theorem followlocation_iff_no_upload (req : webhdfs_req_t)
  (type : webhdfs_req_type) (error : option string) :
  curl_easy_init_ok = true ->
  (exists h, In (EvPerform h) (w_trace (snd (webhdfs_req_exec req type error))))
  /\ forall h,
       In (EvPerform h) (w_trace (snd (webhdfs_req_exec req type error))) ->
       (followlocation_of (options h) <> 0 <-> upload req = None).
Proof.
  intros Hinit.
  destruct (configured_lookup req type) as (K1 & K2 & K3 & K4).
  assert (NotPerform : forall c evs h,
            Forall (callback_event_of c) evs -> ~ In (EvPerform h) evs).
  { intros c evs h F HIn. rewrite Forall_forall in F.
    exact (F _ HIn). }
  destruct (upload req) as [f|] eqn:Hup.
  - destruct (exec_shape_upload req type error f Hinit Hup)
      as (h2 & evs1 & evs2 & err & w' & E & T & F1 & F2 & L & FL & _).
    rewrite E; cbn [snd]; rewrite T. split.
    + exists (configured req type). now left.
    + intros h HIn. assert (FLh : followlocation_of (options h) = 0).
      { destruct HIn as [HIn|HIn]; [inversion HIn; subst; now rewrite K2 |].
        apply in_app_or in HIn. destruct HIn as [HIn|HIn].
        - now apply (NotPerform _ _ h F1) in HIn.
        - destruct HIn as [HIn|HIn]; [discriminate |].
          destruct HIn as [HIn|HIn]; [inversion HIn; subst; exact FL |].
          now apply (NotPerform _ _ h F2) in HIn. }
      rewrite FLh. split; [intros H; now elim H | discriminate].
  - destruct (exec_shape_plain req type error Hinit Hup)
      as (evs & err & w' & E & T & F & _).
    rewrite E; cbn [snd]; rewrite T. split.
    + exists (configured req type). now left.
    + intros h [HIn|HIn].
      * inversion HIn; subst. rewrite K2. split; [reflexivity | discriminate].
      * now apply (NotPerform _ _ h F) in HIn.
Qed.


Lemma exec_result_cases (req : webhdfs_req_t) (type : webhdfs_req_type)
  (error : option string) :
  curl_easy_init_ok = true ->
  exists (err : Z) (w' : world),
    webhdfs_req_exec req type error
      = ((if err =? 0 then 0 else 1),
         (if err =? 0 then error
          else if alloc_ok 512 then
            Some (snprintf 512 "%s (url: %s)"
                    [va_str (curl_easy_strerror err);
                     va_str (blob_text (buffer (w_req w')))])
          else None),
         w').
Proof.
  intros Hinit. destruct (upload req) as [f|] eqn:Hup.
  - destruct (exec_shape_upload req type error f Hinit Hup)
      as (h2 & evs1 & evs2 & err & w' & E & _).
    now exists err, w'.
  - destruct (exec_shape_plain req type error Hinit Hup)
      as (evs & err & w' & E & _).
    now exists err, w'.
Qed.

Lemma snprintf_error_message (a b : string) :
  snprintf 512 "%s (url: %s)" [va_str a; va_str b]
  = substring 0 511 (a ++ " (url: " ++ b ++ ")").
Proof. reflexivity. Qed.

Lemma blob_ptr_clear (b : buffer_t) : blob_ptr (buffer_clear b) = blob_ptr b.
Proof. reflexivity. Qed.

Lemma blob_ptr_nonempty (b : buffer_t) :
  blob b <> EmptyString -> blob_ptr b = Some (CStr.c_str (blob b)).
Proof.
  intros H. unfold blob_ptr, size, CStr.len.
  destruct (blob b) as [|c t]; [now elim H | reflexivity].
Qed.

Lemma write_aborted_write (ptr : string) (n ret : Z) (evs : list event) :
  write_aborted (EvWrite ptr 1 n ret :: evs)
  = negb (ret =? n) || write_aborted evs.
Proof. unfold write_aborted. cbn [existsb]. now rewrite Z.mul_1_l. Qed.

Lemma run_callbacks_full (curl : CURL) (acts : list engine_action) :
  forall (w w' : world) (aborted : option Z),
    run_callbacks curl acts w = (aborted, w') ->
    exists evs,
      w_trace w' = (w_trace w ++ evs)%list
      /\ w_stderr w' = w_stderr w
      /\ Forall (callback_event_of curl) evs
      /\ blob (buffer (w_req w')) = blob (buffer (w_req w)) ++ accepted_bytes evs
      /\ upload (w_req w') = upload (w_req w)
      /\ aborted = (if write_aborted evs then Some CURLE_WRITE_ERROR else None)
      /\ (write_runs evs = 0%nat -> buffer (w_req w') = buffer (w_req w)).
Proof.
  induction acts as [|a acts IH]; intros w w' aborted E; cbn in E.
  - inversion E; subst. exists []. rewrite app_nil_r, str_append_nil_r.
    repeat split; constructor.
  - destruct a as [bytes|max].
    + destruct (writefunction_of (options curl)); [now apply IH in E |].
      pose proof (webhdfs_req_write_effect bytes 1 (CStr.len bytes) (w_req w)) as W.
      destruct (__webhdfs_req_write bytes 1 (CStr.len bytes) (w_req w))
        as [ret req1]. destruct W as [Wb Wu].
      destruct (ret =? CStr.len bytes) eqn:R.
      * apply IH in E. destruct E as (evs & T & S & F & B & U & A & N).
        cbn in *.
        exists (EvWrite bytes 1 (CStr.len bytes) ret :: evs).
        rewrite T, <- app_assoc, B, Wb, str_append_assoc, write_aborted_write,
          R.
        cbn [negb orb write_runs accepted_bytes app].
        repeat split; try assumption; try congruence.
        constructor; [exact I | assumption].
      * inversion E; subst; cbn.
        exists [EvWrite bytes 1 (CStr.len bytes) ret].
        rewrite write_aborted_write, R.
        cbn [negb orb write_runs accepted_bytes app].
        rewrite str_append_nil_r.
        repeat split; try assumption; try discriminate.
        constructor; [exact I | constructor].
    + destruct (readfunction_of (options curl)) eqn:R; [now apply IH in E |].
      pose proof (webhdfs_req_read_effect 1 max (w_req w)) as W.
      destruct (__webhdfs_req_read 1 max (w_req w)) as [[ret out] req1].
      destruct W as [Wb Wu].
      apply IH in E. destruct E as (evs & T & S & F & B & U & A & N).
      cbn in *.
      exists (EvRead (url_of (options curl)) 1 max ret :: evs).
      rewrite T, <- app_assoc, B, Wb. cbn.
      repeat split; try assumption; try congruence.
      * constructor; [now split | assumption].
      * intros H. now rewrite (N H).
Qed.

Lemma curl_easy_perform_full (curl curl' : CURL) (w w' : world) (err : Z) :
  curl_easy_perform curl w = (err, curl', w') ->
  exists evs,
    w_trace w' = (w_trace w ++ EvPerform curl :: evs)%list
    /\ w_stderr w' = w_stderr w
    /\ Forall (callback_event_of curl) evs
    /\ blob (buffer (w_req w')) = blob (buffer (w_req w)) ++ accepted_bytes evs
    /\ upload (w_req w') = upload (w_req w)
    /\ err = transfer_code (network curl) evs
    /\ (write_runs evs = 0%nat -> buffer (w_req w') = buffer (w_req w))
    /\ options curl' = options curl
    /\ CURLINFO_REDIRECT_URL curl' = redirect_url (network curl)
    /\ CURLINFO_RESPONSE_CODE curl' = response_code (network curl).
Proof.
  unfold curl_easy_perform.
  destruct (run_callbacks curl (actions (network curl)) (emit (EvPerform curl) w))
    as [aborted w1] eqn:R.
  intros E; inversion E; subst; clear E.
  apply run_callbacks_full in R.
  destruct R as (evs & T & S & F & B & U & A & N).
  exists evs. cbn in *. rewrite T, <- app_assoc. cbn.
  repeat split; try assumption.
  unfold transfer_code. rewrite A. now destruct (write_aborted evs).
Qed.

(** How every call that obtained a handle ends: the observations close
    with the terminal transfer and its callback runs, and the result
    and the error string are made from the code of that transfer. *)
Lemma exec_terminal (req : webhdfs_req_t) (type : webhdfs_req_type)
  (error : option string) :
  curl_easy_init_ok = true ->
  exists (before : list event) (h : CURL) (evs : list event) (w' : world),
    webhdfs_req_exec req type error
      = ((if transfer_code (network h) evs =? 0 then 0 else 1),
         (if transfer_code (network h) evs =? 0 then error
          else if alloc_ok 512 then
            Some (snprintf 512 "%s (url: %s)"
                    [va_str (curl_easy_strerror
                               (transfer_code (network h) evs));
                     va_str (blob_text (buffer (w_req w')))])
          else None),
         w')
    /\ w_trace w' = (before ++ EvPerform h :: evs)%list
    /\ Forall (callback_event_of h) evs
    /\ blob (buffer (w_req w')) = accepted_bytes evs.
Proof.
  intros Hinit. destruct (upload req) as [f|] eqn:Hup.
  - rewrite (webhdfs_req_exec_upload req type error f Hinit Hup).
    destruct (curl_easy_perform (configured req type) (start req))
      as [[err1 curl1] w1] eqn:P1.
    apply curl_easy_perform_full in P1.
    destruct P1 as (evs1 & T1 & _).
    cbv beta iota zeta.
    match goal with
    | |- context [curl_easy_perform ?h ?w] =>
        destruct (curl_easy_perform h w) as [[err2 curl2] w2] eqn:P2
    end.
    apply curl_easy_perform_full in P2.
    destruct P2 as (evs2 & T2 & _ & F2 & B2 & _ & C2 & _).
    eexists _, (retargeted type curl1), evs2,
      (put_req (set_rcode (w_req w2) (CURLINFO_RESPONSE_CODE curl2)) w2).
    subst err2. split; [reflexivity |]. split; [exact T2 |].
    split; [exact F2 |]. cbn. rewrite B2. reflexivity.
  - rewrite (webhdfs_req_exec_plain req type error Hinit Hup).
    destruct (curl_easy_perform (configured req type)
                (clear_req_buffer (start req))) as [[err curl] w] eqn:P.
    apply curl_easy_perform_full in P.
    destruct P as (evs & T & _ & F & B & _ & C & _).
    exists [], (configured req type), evs,
      (put_req (set_rcode (w_req w) (CURLINFO_RESPONSE_CODE curl)) w).
    subst err. split; [reflexivity |]. split; [exact T |].
    split; [exact F |]. cbn. rewrite B. reflexivity.
Qed.

(** C4, as the code has it.  When a handle was obtained and the call
    returns an error result, the terminal transfer (the last one
    started) has failed: its code, which is the write error if the
    inbound adapter aborted it and otherwise what the engine reports,
    is not 0.  If the allocator grants the 512 bytes of the message,
    the caller's error pointer holds a non-empty string: the engine's
    description of that code, then the text that lies behind the
    buffer's pointer in parentheses, cut to 511 bytes; it begins with
    the (equally cut) description.  If the allocator refuses them, the
    error pointer is NULL. *)
Theorem webhdfs_req_exec_error_message (req : webhdfs_req_t)
  (type : webhdfs_req_type) (error : option string) :
  curl_easy_init_ok = true ->
  forall (ret : Z) (error' : option string) (w' : world),
    webhdfs_req_exec req type error = (ret, error', w') ->
    ret <> 0 ->
    exists (before : list event) (h : CURL) (evs : list event),
      w_trace w' = (before ++ EvPerform h :: evs)%list
      /\ Forall (callback_event_of h) evs
      /\ transfer_code (network h) evs <> 0
      /\ (alloc_ok 512 = true ->
          exists msg,
            error' = Some msg
            /\ msg = substring 0 511
                       (curl_easy_strerror (transfer_code (network h) evs)
                        ++ " (url: " ++ blob_text (buffer (w_req w')) ++ ")")
            /\ msg <> EmptyString
            /\ prefix (substring 0 511
                         (curl_easy_strerror
                            (transfer_code (network h) evs))) msg = true)
      /\ (alloc_ok 512 = false -> error' = None).
Proof.
  intros Hinit ret error' w' E Hret.
  destruct (exec_terminal req type error Hinit)
    as (before & h & evs & w1 & E1 & T & F & _).
  rewrite E1 in E.
  destruct (transfer_code (network h) evs =? 0) eqn:Herr;
    inversion E; subst; [now elim Hret |].
  apply Z.eqb_neq in Herr.
  exists before, h, evs. split; [exact T |]. split; [exact F |].
  split; [exact Herr |].
  split; intros Hmem; rewrite Hmem; [| reflexivity].
  eexists. split; [reflexivity |].
  rewrite snprintf_error_message. split; [reflexivity |]. split.
  - apply str_take_nonempty.
    now destruct (curl_easy_strerror (transfer_code (network h) evs)).
  - apply str_prefix_take.
Qed.

(** ** Response decoder *)

(** C7.  Decoding returns no document and prints nothing when the
    buffer is empty.  When the buffer is not empty and the parser
    rejects it, decoding returns no document and prints exactly one
    diagnostic line, which is not empty.  The decoder is a total
    function: in both cases it returns. *)
Theorem webhdfs_req_json_response_absent (req : webhdfs_req_t) :
  (size (buffer req) = 0 -> webhdfs_req_json_response req = (None, []))
  /\ (size (buffer req) <> 0 ->
      forall msg,
        yajl_tree_parse (CStr.c_str (blob (buffer req))) = inr msg ->
        exists diagnostic,
          webhdfs_req_json_response req = (None, [diagnostic])
          /\ diagnostic <> EmptyString
          /\ prefix "response-parse: " diagnostic = true).
Proof.
  unfold webhdfs_req_json_response. split.
  - intros ->. reflexivity.
  - intros Hs msg Hp. apply Z.eqb_neq in Hs. rewrite Hs, Hp.
    eexists. split; [reflexivity |]. split; [discriminate |].
    change (vsprintf "response-parse: %s" [va_str (CStr.take (1024 - 1) msg)])
      with ("response-parse: " ++ (CStr.take (1024 - 1) msg ++ EmptyString)).
    rewrite str_append_assoc. apply str_prefix_append.
Qed.

(** ** Query parameters *)

Lemma webhdfs_req_set_args_returns_0 (req : webhdfs_req_t) (frmt : string)
  (ap : va_list) :
  fst (webhdfs_req_set_args req frmt ap) = 0.
Proof.
  unfold webhdfs_req_set_args.
  now destruct (buffer_append_vformat (buffer req) frmt ap).
Qed.

(** ** Further properties of the request layer *)

Lemma performs_of_app (l1 l2 : list event) :
  performs_of (l1 ++ l2)%list = (performs_of l1 ++ performs_of l2)%list.
Proof.
  induction l1 as [|e l1 IH]; [reflexivity |].
  destruct e; cbn; now rewrite IH.
Qed.

Lemma read_returns_app (l1 l2 : list event) :
  read_returns (l1 ++ l2)%list = (read_returns l1 ++ read_returns l2)%list.
Proof.
  induction l1 as [|e l1 IH]; [reflexivity |].
  destruct e; cbn; now rewrite IH.
Qed.

Lemma callback_events_no_perform (curl : CURL) (evs : list event) :
  Forall (callback_event_of curl) evs -> performs_of evs = [].
Proof.
  induction 1 as [|e evs He _ IH]; [reflexivity |].
  destruct e; cbn in *; try exact IH; now elim He.
Qed.

Lemma callback_events_no_read (curl : CURL) (evs : list event) :
  readfunction_of (options curl) = default_fread ->
  Forall (callback_event_of curl) evs -> read_returns evs = [].
Proof.
  intros Hr. induction 1 as [|e evs He _ IH]; [reflexivity |].
  destruct e; cbn in *; try exact IH; try now elim He.
  destruct He as [He _]. rewrite Hr in He. discriminate.
Qed.

Lemma webhdfs_req_write_frame (ptr : string) (size nitems : Z)
  (req : webhdfs_req_t) :
  upload_data (snd (__webhdfs_req_write ptr size nitems req)) = upload_data req
  /\ rcode (snd (__webhdfs_req_write ptr size nitems req)) = rcode req.
Proof.
  unfold __webhdfs_req_write.
  destruct (buffer_append (buffer req) ptr (size_mul size nitems)) as [r b].
  destruct (negb (r =? 0)); split; reflexivity.
Qed.

Lemma webhdfs_req_read_frame (size nitems : Z) (req : webhdfs_req_t) :
  rcode (snd (__webhdfs_req_read size nitems req)) = rcode req.
Proof.
  unfold __webhdfs_req_read. destruct (upload req) as [f|]; [| reflexivity].
  now destruct (f (size_mul size nitems) (upload_data req)) as [[n bytes] data].
Qed.

Lemma run_callbacks_frame (curl : CURL) (acts : list engine_action) :
  forall (w w' : world) (aborted : option Z),
    run_callbacks curl acts w = (aborted, w') ->
    rcode (w_req w') = rcode (w_req w)
    /\ (readfunction_of (options curl) = default_fread ->
        upload_data (w_req w') = upload_data (w_req w)).
Proof.
  induction acts as [|a acts IH]; intros w w' aborted E; cbn in E.
  - inversion E; subst. split; [reflexivity | intros _; reflexivity].
  - destruct a as [bytes|max].
    + destruct (writefunction_of (options curl)); [now apply IH in E |].
      pose proof (webhdfs_req_write_frame bytes 1 (CStr.len bytes) (w_req w))
        as [Wd Wr].
      destruct (__webhdfs_req_write bytes 1 (CStr.len bytes) (w_req w))
        as [ret req1]. cbn [snd] in Wd, Wr.
      destruct (ret =? CStr.len bytes).
      * apply IH in E. cbn in E. destruct E as [E1 E2].
        split; [congruence |]. intros Hr. rewrite (E2 Hr). exact Wd.
      * inversion E; subst; cbn. split; [exact Wr | intros _; exact Wd].
    + destruct (readfunction_of (options curl)) eqn:R; [now apply IH in E |].
      pose proof (webhdfs_req_read_frame 1 max (w_req w)) as Wr.
      destruct (__webhdfs_req_read 1 max (w_req w)) as [[ret out] req1].
      cbn [snd] in Wr. apply IH in E. cbn in E. destruct E as [E1 _].
      split; [congruence | discriminate].
Qed.

Lemma curl_easy_perform_frame (curl curl' : CURL) (w w' : world) (err : Z) :
  curl_easy_perform curl w = (err, curl', w') ->
  rcode (w_req w') = rcode (w_req w)
  /\ (readfunction_of (options curl) = default_fread ->
      upload_data (w_req w') = upload_data (w_req w)).
Proof.
  unfold curl_easy_perform.
  destruct (run_callbacks curl (actions (network curl)) (emit (EvPerform curl) w))
    as [aborted w1] eqn:R.
  intros E; inversion E; subst; clear E.
  exact (run_callbacks_frame curl _ _ _ _ R).
Qed.

Lemma exec_plain_facts (req : webhdfs_req_t)
  (type : webhdfs_req_type) (error : option string) :
  curl_easy_init_ok = true ->
  upload req = None ->
  exists h,
    performs_of (w_trace (snd (webhdfs_req_exec req type error))) = [h]
    /\ url_of (options h) = blob_ptr (buffer req)
    /\ httpheader_of (options h) = []
    /\ read_returns (w_trace (snd (webhdfs_req_exec req type error))) = []
    /\ blob (buffer (w_req (snd (webhdfs_req_exec req type error))))
       = accepted_bytes (w_trace (snd (webhdfs_req_exec req type error)))
    /\ rcode (w_req (snd (webhdfs_req_exec req type error)))
       = response_code (network h)
    /\ upload (w_req (snd (webhdfs_req_exec req type error))) = None
    /\ upload_data (w_req (snd (webhdfs_req_exec req type error)))
       = upload_data req
    /\ (blob (buffer req) <> EmptyString ->
        url_of (options h) = Some (CStr.c_str (blob (buffer req)))).
Proof.
  intros Hinit Hup.
  rewrite (webhdfs_req_exec_plain req type error Hinit Hup).
  destruct (configured_lookup req type) as (K1 & K2 & K3 & K4).
  destruct (curl_easy_perform (configured req type)
              (clear_req_buffer (start req))) as [[err curl] w] eqn:P.
  pose proof (curl_easy_perform_frame _ _ _ _ _ P) as [_ Fd].
  apply curl_easy_perform_spec in P.
  destruct P as (evs & T & S & F & B & U & O & R & C).
  exists (configured req type). cbn [finish snd w_trace put_req w_req set_rcode
    buffer rcode upload upload_data].
  rewrite T. cbn [start clear_req_buffer put_req w_trace app performs_of
    read_returns accepted_bytes].
  rewrite (callback_events_no_perform _ _ F),
    (callback_events_no_read _ _ K3 F).
  repeat split; try assumption.
  - now destruct type.
  - now rewrite U.
  - now rewrite (Fd K3).
  - intros Hne. rewrite K1. now apply blob_ptr_nonempty.
Qed.

(** X1.  A request without an upload capability is executed with
    exactly one transfer, against the text behind the buffer's pointer
    at the call, which is the URL the buffer held (its contents, as a C
    string) whenever the buffer is not empty; no headers are added; the
    outbound adapter never runs; at return the buffer holds what the
    inbound adapter accepted, the status code is the one the engine
    reports for that transfer, and the upload fields are as they
    were. *)
Theorem plain_exec_single_transfer (req : webhdfs_req_t)
  (type : webhdfs_req_type) (error : option string) :
  curl_easy_init_ok = true ->
  upload req = None ->
  exists h,
    performs_of (w_trace (snd (webhdfs_req_exec req type error))) = [h]
    /\ url_of (options h) = blob_ptr (buffer req)
    /\ httpheader_of (options h) = []
    /\ read_returns (w_trace (snd (webhdfs_req_exec req type error))) = []
    /\ blob (buffer (w_req (snd (webhdfs_req_exec req type error))))
       = accepted_bytes (w_trace (snd (webhdfs_req_exec req type error)))
    /\ rcode (w_req (snd (webhdfs_req_exec req type error)))
       = response_code (network h)
    /\ upload (w_req (snd (webhdfs_req_exec req type error))) = None
    /\ upload_data (w_req (snd (webhdfs_req_exec req type error)))
       = upload_data req
    /\ (blob (buffer req) <> EmptyString ->
        url_of (options h) = Some (CStr.c_str (blob (buffer req)))).
Proof. exact (exec_plain_facts req type error). Qed.



Lemma run_callbacks_drain (curl : CURL) (f : webhdfs_upload_t)
  (acts : list engine_action) :
  (forall k, alloc_ok k = true) ->
  writefunction_of (options curl) = cb_webhdfs_req_write ->
  readfunction_of (options curl) = cb_webhdfs_req_read ->
  chunks_fit acts = true ->
  forall (w w' : world) (aborted : option Z),
    upload (w_req w) = Some f ->
    run_callbacks curl acts w = (aborted, w') ->
    read_returns (w_trace w')
    = (read_returns (w_trace w)
       ++ fst (drain f acts (upload_data (w_req w))))%list
    /\ upload_data (w_req w') = snd (drain f acts (upload_data (w_req w))).
Proof.
  intros Hall Hw Hr. induction acts as [|a acts IH];
    intros Hfit w w' aborted Hup E; cbn in E.
  - inversion E; subst. cbn. now rewrite app_nil_r.
  - unfold chunks_fit in Hfit, IH. cbn [forallb] in Hfit.
    apply andb_true_iff in Hfit. destruct Hfit as [Ha Hfit].
    destruct a as [bytes|max].
    + rewrite Hw in E. apply Z.leb_le in Ha.
      unfold __webhdfs_req_write in E.
      rewrite size_mul_1 in E by (unfold CStr.len in *; lia).
      destruct (buffer_append_granted (buffer (w_req w)) bytes (CStr.len bytes)
                  Hall) as [c H].
      rewrite H in E. cbn in E. rewrite Z.eqb_refl in E.
      apply (IH Hfit) in E; [| exact Hup]. cbn in E.
      rewrite read_returns_app in E. cbn in E. rewrite app_nil_r in E.
      exact E.
    + rewrite Hr in E. unfold __webhdfs_req_read in E. rewrite Hup in E.
      cbn [drain].
      destruct (f (size_mul 1 max) (upload_data (w_req w)))
        as [[n bytes] data1].
      apply (IH Hfit) in E; [| reflexivity]. cbn in E.
      rewrite read_returns_app in E. cbn in E.
      destruct (drain f acts data1) as [ns data2]. cbn in *.
      destruct E as [E1 E2]. split; [| exact E2].
      now rewrite E1, <- app_assoc.
Qed.

Lemma curl_easy_perform_drain (curl curl' : CURL) (f : webhdfs_upload_t)
  (w w' : world) (err : Z) :
  (forall k, alloc_ok k = true) ->
  writefunction_of (options curl) = cb_webhdfs_req_write ->
  readfunction_of (options curl) = cb_webhdfs_req_read ->
  chunks_fit (actions (network curl)) = true ->
  upload (w_req w) = Some f ->
  curl_easy_perform curl w = (err, curl', w') ->
  read_returns (w_trace w')
  = (read_returns (w_trace w)
     ++ fst (drain f (actions (network curl)) (upload_data (w_req w))))%list
  /\ upload_data (w_req w')
     = snd (drain f (actions (network curl)) (upload_data (w_req w))).
Proof.
  intros Hall Hw Hr Hfit Hup. unfold curl_easy_perform.
  destruct (run_callbacks curl (actions (network curl)) (emit (EvPerform curl) w))
    as [aborted w1] eqn:R.
  intros E; inversion E; subst; clear E.
  apply (run_callbacks_drain curl f _ Hall Hw Hr Hfit) in R; [| exact Hup].
  cbn in R. rewrite read_returns_app in R. cbn in R.
  now rewrite app_nil_r in R.
Qed.

Lemma second_handle_lookup (req : webhdfs_req_t) (type : webhdfs_req_type)
  (curl : CURL) :
  options curl = options (configured req type) ->
  httpheader_of (options (retargeted type curl))
    = ["Transfer-Encoding: chunked"]
  /\ customrequest_of (options (retargeted type curl))
     = customrequest_of (options (configured req type))
  /\ httpget_of (options (retargeted type curl))
     = httpget_of (options (configured req type))
  /\ put_of (options (retargeted type curl))
     = match type with WEBHDFS_REQ_PUT => 1 | _ => 0 end
  /\ post_of (options (retargeted type curl))
     = match type with WEBHDFS_REQ_POST => 1 | _ => 0 end.
Proof.
  intros H. destruct type; cbn; rewrite H; repeat split.
Qed.

Lemma first_handle_lookup (req : webhdfs_req_t) (type : webhdfs_req_type) :
  httpheader_of (options (configured req type)) = []
  /\ put_of (options (configured req type)) = 0
  /\ post_of (options (configured req type)) = 0
  /\ httpget_of (options (configured req type))
     = match type with WEBHDFS_REQ_GET => 1 | _ => 0 end
  /\ customrequest_of (options (configured req type))
     = match type with
       | WEBHDFS_REQ_GET => None
       | WEBHDFS_REQ_PUT => Some "PUT"
       | WEBHDFS_REQ_POST => Some "POST"
       | WEBHDFS_REQ_DELETE => Some "DELETE"
       end.
Proof. destruct type; repeat split. Qed.

Lemma exec_upload_facts (req : webhdfs_req_t) (type : webhdfs_req_type)
  (error : option string) (f : webhdfs_upload_t) :
  curl_easy_init_ok = true ->
  upload req = Some f ->
  exists (curl1 : CURL) (err1 err2 : Z) (w' : world),
    webhdfs_req_exec req type error
      = ((if err2 =? 0 then 0 else 1),
         (if err2 =? 0 then error
          else if alloc_ok 512 then
            Some (snprintf 512 "%s (url: %s)"
                    [va_str (curl_easy_strerror err2);
                     va_str (blob_text (buffer (w_req w')))])
          else None),
         w')
    /\ options curl1 = options (configured req type)
    /\ CURLINFO_REDIRECT_URL curl1
       = redirect_url (network (configured req type))
    /\ performs_of (w_trace w')
       = [configured req type; retargeted type curl1]
    /\ w_stderr w'
       = (if err1 =? 0 then []
          else [curl_easy_strerror err1 ++ newline])
    /\ upload (w_req w') = Some f
    /\ rcode (w_req w') = response_code (network (retargeted type curl1))
    /\ ((forall k, alloc_ok k = true) ->
        (forall h, chunks_fit (actions (network h)) = true) ->
        err1 = result (network (configured req type))
        /\ err2 = result (network (retargeted type curl1))
        /\ read_returns (w_trace w')
           = fst (drain f (actions (network (retargeted type curl1)))
                    (upload_data req))
        /\ upload_data (w_req w')
           = snd (drain f (actions (network (retargeted type curl1)))
                    (upload_data req))).
Proof.
  intros Hinit Hup. rewrite (webhdfs_req_exec_upload req type error f Hinit Hup).
  destruct (configured_lookup req type) as (K1 & K2 & K3 & K4).
  destruct (curl_easy_perform (configured req type) (start req))
    as [[err1 curl1] w1] eqn:P1.
  pose proof (curl_easy_perform_frame _ _ _ _ _ P1) as [_ Fd1].
  pose proof P1 as G1.
  apply curl_easy_perform_spec in P1.
  destruct P1 as (evs1 & T1 & S1 & F1 & B1 & U1 & O1 & R1 & C1).
  cbv beta iota zeta.
  destruct (retargeted_lookup type curl1) as (L1 & L2 & L3 & L4).
  match goal with
  | |- context [curl_easy_perform ?h ?w] =>
      destruct (curl_easy_perform h w) as [[err2 curl2] w2] eqn:P2
  end.
  pose proof P2 as G2. pose proof P2 as D2.
  apply curl_easy_perform_spec in P2.
  destruct P2 as (evs2 & T2 & S2 & F2 & B2 & U2 & O2 & R2 & C2).
  exists curl1, err1, err2,
    (put_req (set_rcode (w_req w2) (CURLINFO_RESPONSE_CODE curl2)) w2).
  split; [reflexivity |]. split; [exact O1 |]. split; [exact R1 |].
  assert (Tr : w_trace w2
               = (EvPerform (configured req type) :: evs1
                  ++ EvGetRedirect (CURLINFO_REDIRECT_URL curl1)
                  :: EvPerform (retargeted type curl1) :: evs2)%list).
  { rewrite T2. destruct (err1 =? 0); cbn; rewrite T1; cbn;
      rewrite <- app_assoc; reflexivity. }
  assert (Up : upload (w_req w2) = Some f).
  { rewrite U2. destruct (err1 =? 0); cbn; rewrite U1; exact Hup. }
  split.
  { cbn [w_trace put_req]. rewrite Tr. cbn [performs_of].
    rewrite performs_of_app. cbn [performs_of].
    now rewrite (callback_events_no_perform _ _ F1),
      (callback_events_no_perform _ _ F2). }
  split.
  { cbn [w_stderr put_req]. rewrite S2.
    destruct (err1 =? 0); cbn; rewrite S1; reflexivity. }
  split; [exact Up |]. split; [cbn; exact C2 |].
  intros Hall Hfit.
  apply (curl_easy_perform_granted _ _ _ _ _ Hall K4 (Hfit _)) in G1.
  destruct G1 as [G1 _].
  assert (W2 : writefunction_of (options (retargeted type curl1))
               = cb_webhdfs_req_write) by (now rewrite L4, O1, K4).
  apply (curl_easy_perform_granted _ _ _ _ _ Hall W2 (Hfit _)) in G2.
  destruct G2 as [G2 _].
  split; [exact G1 |]. split; [exact G2 |].
  apply (curl_easy_perform_drain _ _ f _ _ _ Hall W2 L3 (Hfit _)) in D2.
  - destruct D2 as [D2 D3]. cbn [w_trace put_req w_req upload_data set_rcode].
    assert (Q : upload_data
                  (w_req
                     (clear_req_buffer
                        (emit (EvGetRedirect (CURLINFO_REDIRECT_URL curl1))
                           (if err1 =? 0 then w1
                            else fprintf_stderr
                                   (curl_easy_strerror err1 ++ newline) w1))))
                = upload_data req).
    { destruct (err1 =? 0); cbn; now rewrite (Fd1 K3). }
    rewrite Q in D2, D3. split; [| exact D3].
    rewrite D2.
    assert (N : read_returns
                  (w_trace
                     (clear_req_buffer
                        (emit (EvGetRedirect (CURLINFO_REDIRECT_URL curl1))
                           (if err1 =? 0 then w1
                            else fprintf_stderr
                                   (curl_easy_strerror err1 ++ newline) w1))))
                = []).
    { destruct (err1 =? 0); cbn; rewrite T1; cbn;
        rewrite read_returns_app, (callback_events_no_read _ _ K3 F1);
        reflexivity. }
    now rewrite N.
  - destruct (err1 =? 0); cbn; rewrite U1; exact Hup.
Qed.

(** X3.  In an upload, a failure of the first transfer is printed on
    the standard error stream (one line, the engine's description) and
    otherwise ignored: the second transfer is started all the same,
    against whatever redirect target the engine reports, and the result
    of the call is decided by the second transfer alone.  (Stated for
    an allocator that grants every request and chunks that fit
    [size_t], so that no transfer is aborted by the inbound adapter.) *)
Theorem upload_first_failure_not_fatal (req : webhdfs_req_t)
  (type : webhdfs_req_type) (error : option string) (f : webhdfs_upload_t) :
  curl_easy_init_ok = true ->
  upload req = Some f ->
  (forall k, alloc_ok k = true) ->
  (forall h, chunks_fit (actions (network h)) = true) ->
  exists h1 h2,
    performs_of (w_trace (snd (webhdfs_req_exec req type error))) = [h1; h2]
    /\ url_of (options h2) = redirect_url (network h1)
    /\ w_stderr (snd (webhdfs_req_exec req type error))
       = (if result (network h1) =? 0 then []
          else [curl_easy_strerror (result (network h1)) ++ newline])
    /\ fst (fst (webhdfs_req_exec req type error))
       = (if result (network h2) =? 0 then 0 else 1).
Proof.
  intros Hinit Hup Hall Hfit.
  destruct (exec_upload_facts req type error f Hinit Hup)
    as (curl1 & err1 & err2 & w' & E & O & R & P & S & U & C & G).
  destruct (G Hall Hfit) as (G1 & G2 & _).
  destruct (retargeted_lookup type curl1) as (L1 & _).
  exists (configured req type), (retargeted type curl1).
  rewrite E. cbn [fst snd]. subst err1 err2.
  repeat split; try assumption. now rewrite L1, R.
Qed.

(** X4.  In an upload, the producer is called once for every pull of
    the second transfer and never during the first: the values the
    outbound adapter returns are the producer's, each call gets
    [size * nitems] and the caller's state as the previous call left
    it, and the request holds the final state at return; the producer
    stays bound.  (Stated for an allocator that grants every request
    and chunks that fit [size_t].) *)
Theorem upload_exec_producer_chain (req : webhdfs_req_t)
  (type : webhdfs_req_type) (error : option string) (f : webhdfs_upload_t) :
  curl_easy_init_ok = true ->
  upload req = Some f ->
  (forall k, alloc_ok k = true) ->
  (forall h, chunks_fit (actions (network h)) = true) ->
  exists h1 h2,
    performs_of (w_trace (snd (webhdfs_req_exec req type error))) = [h1; h2]
    /\ read_returns (w_trace (snd (webhdfs_req_exec req type error)))
       = fst (drain f (actions (network h2)) (upload_data req))
    /\ upload_data (w_req (snd (webhdfs_req_exec req type error)))
       = snd (drain f (actions (network h2)) (upload_data req))
    /\ upload (w_req (snd (webhdfs_req_exec req type error))) = Some f.
Proof.
  intros Hinit Hup Hall Hfit.
  destruct (exec_upload_facts req type error f Hinit Hup)
    as (curl1 & err1 & err2 & w' & E & O & R & P & S & U & C & G).
  destruct (G Hall Hfit) as (_ & _ & G3 & G4).
  exists (configured req type), (retargeted type curl1).
  rewrite E. cbn [fst snd]. repeat split; assumption.
Qed.

(** X5.  The two transfers of an upload differ as the code sets them
    up: the first carries no extra header, no body-mode flag and the
    default read callback; the second carries the single header
    Transfer-Encoding: chunked and the outbound adapter, keeps the
    method and the inbound adapter of the first, and has the PUT flag
    exactly for a PUT and the POST flag exactly for a POST (so none for
    GET or DELETE).  The method is HTTPGET for GET and the custom
    request PUT, POST or DELETE otherwise. *)
Theorem upload_transfer_configuration (req : webhdfs_req_t)
  (type : webhdfs_req_type) (error : option string) (f : webhdfs_upload_t) :
  curl_easy_init_ok = true ->
  upload req = Some f ->
  exists h1 h2,
    performs_of (w_trace (snd (webhdfs_req_exec req type error))) = [h1; h2]
    /\ (httpheader_of (options h1) = []
        /\ put_of (options h1) = 0 /\ post_of (options h1) = 0
        /\ readfunction_of (options h1) = default_fread
        /\ writefunction_of (options h1) = cb_webhdfs_req_write)
    /\ (httpheader_of (options h2) = ["Transfer-Encoding: chunked"]
        /\ (put_of (options h2) <> 0 <-> type = WEBHDFS_REQ_PUT)
        /\ (post_of (options h2) <> 0 <-> type = WEBHDFS_REQ_POST)
        /\ readfunction_of (options h2) = cb_webhdfs_req_read
        /\ writefunction_of (options h2) = cb_webhdfs_req_write)
    /\ customrequest_of (options h2) = customrequest_of (options h1)
    /\ httpget_of (options h2) = httpget_of (options h1)
    /\ customrequest_of (options h1)
       = match type with
         | WEBHDFS_REQ_GET => None
         | WEBHDFS_REQ_PUT => Some "PUT"
         | WEBHDFS_REQ_POST => Some "POST"
         | WEBHDFS_REQ_DELETE => Some "DELETE"
         end
    /\ (httpget_of (options h1) <> 0 <-> type = WEBHDFS_REQ_GET).
Proof.
  intros Hinit Hup.
  destruct (exec_upload_facts req type error f Hinit Hup)
    as (curl1 & err1 & err2 & w' & E & O & R & P & _).
  destruct (configured_lookup req type) as (K1 & K2 & K3 & K4).
  destruct (retargeted_lookup type curl1) as (L1 & L2 & L3 & L4).
  destruct (first_handle_lookup req type) as (A1 & A2 & A3 & A4 & A5).
  destruct (second_handle_lookup req type curl1 O) as (B1 & B2 & B3 & B4 & B5).
  exists (configured req type), (retargeted type curl1).
  rewrite E. cbn [snd].
  split; [exact P |].
  split; [repeat split; assumption |].
  split.
  { split; [exact B1 |]. rewrite B4, B5, L3, L4, O, K4.
    repeat split; destruct type; try discriminate; try reflexivity;
      intros H; now elim H. }
  split; [exact B2 |]. split; [exact B3 |]. split; [exact A5 |].
  rewrite A4. split; destruct type; try discriminate; try reflexivity;
    intros H; now elim H.
Qed.

(** X6.  Whenever a handle was obtained: the call returns 0 or 1; on 0
    the caller's error pointer is left as it was; the status code in
    the request is the one the engine reports for the last transfer
    started, also when that transfer failed; and the upload capability
    bound to the request is the one that was bound before. *)
Theorem webhdfs_req_exec_outcome (req : webhdfs_req_t)
  (type : webhdfs_req_type) (error : option string) :
  curl_easy_init_ok = true ->
  (fst (fst (webhdfs_req_exec req type error)) = 0
   \/ fst (fst (webhdfs_req_exec req type error)) = 1)
  /\ (fst (fst (webhdfs_req_exec req type error)) = 0 ->
      snd (fst (webhdfs_req_exec req type error)) = error)
  /\ rcode (w_req (snd (webhdfs_req_exec req type error)))
     = response_code
         (network
            (last (performs_of
                     (w_trace (snd (webhdfs_req_exec req type error))))
               fresh_handle))
  /\ upload (w_req (snd (webhdfs_req_exec req type error))) = upload req.
Proof.
  intros Hinit.
  destruct (exec_result_cases req type error Hinit) as (err & w1 & E1).
  assert (R : (fst (fst (webhdfs_req_exec req type error)) = 0
               \/ fst (fst (webhdfs_req_exec req type error)) = 1)
              /\ (fst (fst (webhdfs_req_exec req type error)) = 0 ->
                  snd (fst (webhdfs_req_exec req type error)) = error)).
  { rewrite E1. cbn [fst snd]. destruct (err =? 0).
    - split; [now left | reflexivity].
    - split; [now right | discriminate]. }
  destruct R as [R1 R2]. split; [exact R1 |]. split; [exact R2 |].
  destruct (upload req) as [f|] eqn:Hup.
  - destruct (exec_upload_facts req type error f Hinit Hup)
      as (curl1 & e1 & e2 & w' & E & O & Rd & P & S & U & C & _).
    rewrite E. cbn [snd]. rewrite P. cbn [last]. now split.
  - destruct (exec_plain_facts req type error Hinit Hup)
      as (h & P & _ & _ & _ & _ & C & U & _).
    rewrite P. cbn [last]. now split.
Qed.

Lemma str_length_take_le (n : nat) (s : string) :
  (String.length (substring 0 n s) <= n)%nat.
Proof.
  revert s; induction n as [|n IH]; intros [|x s]; simpl; try lia.
  specialize (IH s); lia.
Qed.

Lemma str_take_short (n : nat) (s : string) :
  (String.length s <= n)%nat -> substring 0 n s = s.
Proof.
  revert s; induction n as [|n IH]; intros [|x s] H; cbn in *;
    try reflexivity; try lia.
  rewrite IH; [reflexivity | lia].
Qed.

Lemma str_length_app (a b : string) :
  String.length (a ++ b) = (String.length a + String.length b)%nat.
Proof. induction a as [|x a IH]; simpl; [reflexivity | now rewrite IH]. Qed.

(** X7.  An error string that the call produces never exceeds 511
    bytes; and when the engine's description of the code of the
    terminal transfer and the text behind the buffer's pointer at
    return together have at most 503 bytes, the string is exactly that
    description, the text " (url: ", the text behind the pointer and
    ")", with nothing cut. *)
Theorem webhdfs_req_exec_message_bound (req : webhdfs_req_t)
  (type : webhdfs_req_type) (error : option string) :
  curl_easy_init_ok = true ->
  forall (ret : Z) (msg : string) (w' : world),
    webhdfs_req_exec req type error = (ret, Some msg, w') ->
    ret <> 0 ->
    (String.length msg <= 511)%nat
    /\ exists (before : list event) (h : CURL) (evs : list event),
         w_trace w' = (before ++ EvPerform h :: evs)%list
         /\ Forall (callback_event_of h) evs
         /\ transfer_code (network h) evs <> 0
         /\ ((String.length
                (curl_easy_strerror (transfer_code (network h) evs))
              + String.length (blob_text (buffer (w_req w')))
              <= 503)%nat ->
             msg = curl_easy_strerror (transfer_code (network h) evs)
                   ++ " (url: " ++ blob_text (buffer (w_req w')) ++ ")").
Proof.
  intros Hinit ret msg w' E Hret.
  destruct (exec_terminal req type error Hinit)
    as (before & h & evs & w1 & E1 & T & F & _).
  rewrite E1 in E.
  destruct (transfer_code (network h) evs =? 0) eqn:Herr;
    inversion E; subst; [now elim Hret |].
  apply Z.eqb_neq in Herr.
  destruct (alloc_ok 512); [| discriminate].
  match goal with H : Some _ = Some msg |- _ => inversion H; subst; clear H end.
  rewrite snprintf_error_message. split; [apply str_length_take_le |].
  exists before, h, evs. split; [exact T |]. split; [exact F |].
  split; [exact Herr |]. intros Hlen.
  apply str_take_short. rewrite !str_length_app. cbn [String.length]. lia.
Qed.

(** ** Further properties of the request builder *)

Lemma webhdfs_req_open_spec (req : webhdfs_req_t) (fs : webhdfs_t)
  (path : option string) :
  forall r req',
    webhdfs_req_open req fs path = (r, req') ->
    ((forall k, alloc_ok k = true) -> r = 0) /\
    (r = 0 ->
     blob (buffer req') =
       (if use_ssl (conf fs) =? 0 then "http" else "https")
       ++ "://" ++ hdfs_host (conf fs)
       ++ ":" ++ CStr.decimal (webhdfs_port (conf fs))
       ++ "/webhdfs/v1/"
       ++ match path with
          | Some p0 =>
              match CStr.plus1 p0 with
              | Some rest => rest
              | None => past_terminator
              end
          | None => EmptyString
          end
       ++ "?"
       ++ match hdfs_user (conf fs) with
          | Some user => "user.name=" ++ user ++ "&"
          | None => EmptyString
          end
       ++ match token (conf fs) with
          | Some tok => "delegation=" ++ tok ++ "&"
          | None => EmptyString
          end).
Proof.
  intros r req'. unfold webhdfs_req_open, buffer_append_format.
  destruct fs as [[ssl host port user tok]]; cbn [conf use_ssl hdfs_host
    webhdfs_port hdfs_user token set_buffer buffer upload
    upload_data rcode].
  set (p := match path with
            | Some p0 =>
                match CStr.plus1 p0 with
                | Some rest => rest
                | None => past_terminator
                end
            | None => EmptyString
            end).
  set (b0 := buffer_clear (buffer_open (buffer req))).
  set (a1 := [va_str (if ssl =? 0 then "http" else "https"); va_str host;
              va_int port; va_str p]).
  pose proof (@buffer_append_vformat_ok b0) as K1.
  pose proof (@buffer_append_vformat_granted_ok b0) as G1.
  specialize (K1) with (frmt := "%s://%s:%d/webhdfs/v1/%s?") (ap := a1).
  specialize (G1 "%s://%s:%d/webhdfs/v1/%s?" a1).
  destruct (buffer_append_vformat b0 "%s://%s:%d/webhdfs/v1/%s?" a1)
    as [r1 b1].
  assert (U : forall r0 bU,
            match user with
            | Some u =>
                let '(r', b) := buffer_append_vformat b1 "user.name=%s&" [va_str u] in
                (Z.lor r1 r', b)
            | None => (r1, b1)
            end = (r0, bU) ->
            ((forall k, alloc_ok k = true) -> r0 = 0) /\
            (r0 = 0 -> r1 = 0 /\
               blob bU = blob b1 ++ match user with
                                    | Some u => "user.name=" ++ u ++ "&"
                                    | None => EmptyString
                                    end)).
  { intros r0 bU. destruct user as [u|].
    - pose proof (@buffer_append_vformat_ok b1) as K2.
      pose proof (@buffer_append_vformat_granted_ok b1 "user.name=%s&" [va_str u]) as G2.
      specialize (K2) with (frmt := "user.name=%s&") (ap := [va_str u]).
      destruct (buffer_append_vformat b1 "user.name=%s&" [va_str u]) as [r2 b2].
      intros E; inversion E; subst; split.
      + intros Hall. cbn in G1, G2. now rewrite (G1 Hall), (G2 Hall).
      + intros H0. apply Z.lor_eq_0_iff in H0. destruct H0 as [-> ->].
        split; [reflexivity |]. now rewrite (K2 bU eq_refl).
    - intros E; inversion E; subst; split.
      + intros Hall. exact (G1 Hall).
      + intros ->. now rewrite str_append_nil_r. }
  destruct (match user with
            | Some u =>
                let '(r', b) := buffer_append_vformat b1 "user.name=%s&" [va_str u] in
                (Z.lor r1 r', b)
            | None => (r1, b1)
            end) as [r2 b2].
  specialize (U r2 b2 eq_refl). destruct U as [UG UK].
  assert (Fin : blob b0 = EmptyString) by reflexivity.
  assert (F1 : vsprintf "%s://%s:%d/webhdfs/v1/%s?" a1
               = (if ssl =? 0 then "http" else "https")
                 ++ "://" ++ host ++ ":" ++ CStr.decimal port
                 ++ "/webhdfs/v1/" ++ p ++ "?").
  { reflexivity. }
  destruct tok as [t|].
  - pose proof (@buffer_append_vformat_ok b2) as K3.
    pose proof (@buffer_append_vformat_granted_ok b2 "delegation=%s&" [va_str t]) as G3.
    specialize (K3) with (frmt := "delegation=%s&") (ap := [va_str t]).
    destruct (buffer_append_vformat b2 "delegation=%s&" [va_str t]) as [r3 b3].
    intros E; inversion E; subst; cbn [buffer set_buffer]; split.
    + intros Hall. cbn in G3. now rewrite (UG Hall), (G3 Hall).
    + intros H0. apply Z.lor_eq_0_iff in H0. destruct H0 as [H2 ->].
      destruct (UK H2) as [H1 B2].
      rewrite (K3 b3 eq_refl), B2, (K1 b1 (f_equal (fun x => (x, b1)) H1)),
        Fin, F1.
      cbn [vsprintf]. cbn [String.append].
      rewrite !str_append_assoc. cbn [String.append].
      rewrite !str_append_assoc. cbn [String.append].
      rewrite !str_append_assoc. cbn [String.append].
      rewrite !str_append_assoc. reflexivity.
  - intros E; inversion E; subst; cbn [buffer set_buffer]; split.
    + exact UG.
    + intros H2. destruct (UK H2) as [H1 B2].
      rewrite B2, (K1 b1 (f_equal (fun x => (x, b1)) H1)), Fin, F1.
      cbn [String.append].
      rewrite !str_append_assoc. cbn [String.append].
      rewrite !str_append_assoc. cbn [String.append].
      rewrite !str_append_assoc. cbn [String.append].
      rewrite !str_append_assoc. now rewrite !str_append_nil_r.
Qed.

Lemma webhdfs_req_open_fields (req : webhdfs_req_t) (fs : webhdfs_t)
  (path : option string) :
  upload (snd (webhdfs_req_open req fs path)) = None
  /\ upload_data (snd (webhdfs_req_open req fs path)) = None
  /\ rcode (snd (webhdfs_req_open req fs path)) = rcode req.
Proof.
  unfold webhdfs_req_open.
  destruct (buffer_append_format _ _ _) as [r1 b1].
  destruct (hdfs_user (conf fs)) as [u|], (token (conf fs)) as [t|];
    repeat match goal with
           | |- context [buffer_append_format ?b ?f ?a] =>
               destruct (buffer_append_format b f a)
           end; repeat split.
Qed.

(** X8.  The path argument of [webhdfs_req_open] loses its first byte
    whatever that byte is, and a NULL path gives the empty path
    segment: for a path that is NULL or has at least one byte, on
    success the buffer holds scheme://host:port/webhdfs/v1/ followed by
    the path from its second byte on (nothing for NULL), a question
    mark and the configured user and token parameters.  (For the empty
    string the code reads past the terminator; nothing is stated.) *)
Theorem webhdfs_req_open_any_path (req : webhdfs_req_t) (fs : webhdfs_t)
  (path : option string) :
  path <> Some EmptyString ->
  forall r req',
    webhdfs_req_open req fs path = (r, req') ->
    r = 0 ->
    blob (buffer req') =
      (if use_ssl (conf fs) =? 0 then "http" else "https")
      ++ "://" ++ hdfs_host (conf fs)
      ++ ":" ++ CStr.decimal (webhdfs_port (conf fs))
      ++ "/webhdfs/v1/"
      ++ match path with
         | Some (String _ rest) => rest
         | _ => EmptyString
         end
      ++ "?"
      ++ match hdfs_user (conf fs) with
         | Some user => "user.name=" ++ user ++ "&"
         | None => EmptyString
         end
      ++ match token (conf fs) with
         | Some tok => "delegation=" ++ tok ++ "&"
         | None => EmptyString
         end.
Proof.
  intros Hpath r req' E Hr.
  destruct (webhdfs_req_open_spec req fs path r req' E) as [_ K].
  rewrite (K Hr). destruct path as [[|c rest]|]; try reflexivity.
  now elim Hpath.
Qed.

(** X9.  [webhdfs_req_open] starts from scratch: what the request held
    before (buffer contents and capacity, upload capability and its
    data) has no influence on the result, and the opened request has no
    upload capability and no upload data; only the status code is
    carried over. *)
Theorem webhdfs_req_open_fresh (req1 req2 : webhdfs_req_t) (fs : webhdfs_t)
  (path : option string) :
  rcode req1 = rcode req2 ->
  webhdfs_req_open req1 fs path = webhdfs_req_open req2 fs path
  /\ upload (snd (webhdfs_req_open req1 fs path)) = None
  /\ upload_data (snd (webhdfs_req_open req1 fs path)) = None
  /\ rcode (snd (webhdfs_req_open req1 fs path)) = rcode req1.
Proof.
  intros H. split; [| apply webhdfs_req_open_fields].
  unfold webhdfs_req_open. cbn [set_buffer buffer rcode upload upload_data].
  unfold buffer_open. now rewrite H.
Qed.

Lemma buffer_append_vformat_refused (frmt : string) (ap : va_list) :
  (forall k, alloc_ok k = false) ->
  vsprintf frmt ap <> EmptyString ->
  buffer_append_vformat
    {| blob := EmptyString; capacity := 0; behind := None |} frmt ap
  = (ENOMEM, {| blob := EmptyString; capacity := 0; behind := None |}).
Proof.
  intros Hno Hne. unfold buffer_append_vformat, buffer_append, size.
  cbn [blob capacity].
  destruct (vsprintf frmt ap) as [|c t] eqn:V; [now elim Hne |].
  replace (CStr.len EmptyString + CStr.len (String c t) <=? 0) with false.
  - now rewrite Hno.
  - symmetry. apply Z.leb_gt. unfold CStr.len. cbn [String.length]. lia.
Qed.

(** X10.  When the allocator refuses every request, [webhdfs_req_open]
    returns the buffer's failure code (non-zero) and the request is
    left with an empty buffer and no upload capability: no part of the
    URL has been stored. *)
Theorem webhdfs_req_open_out_of_memory (req : webhdfs_req_t) (fs : webhdfs_t)
  (path : option string) :
  (forall k, alloc_ok k = false) ->
  webhdfs_req_open req fs path
  = (ENOMEM,
     {| buffer := {| blob := EmptyString; capacity := 0; behind := None |};
        upload := None; upload_data := None; rcode := rcode req |})
  /\ ENOMEM <> 0.
Proof.
  intros Hno. split; [| exact ENOMEM_nonzero].
  unfold webhdfs_req_open, buffer_append_format.
  cbn [set_buffer buffer rcode upload upload_data].
  unfold buffer_open, buffer_clear, blob_ptr, size.
  cbn [capacity blob behind CStr.len String.length Z.of_nat Z.eqb].
  rewrite (buffer_append_vformat_refused _ _ Hno)
    by (cbn; destruct (use_ssl (conf fs) =? 0); discriminate).
  destruct (hdfs_user (conf fs)) as [u|], (token (conf fs)) as [t|];
    rewrite ?(buffer_append_vformat_refused "user.name=%s&" _ Hno)
      by discriminate;
    rewrite ?(buffer_append_vformat_refused "delegation=%s&" _ Hno)
      by discriminate;
    rewrite ?Z.lor_diag; reflexivity.
Qed.

Lemma webhdfs_req_set_args_spec (req : webhdfs_req_t) (frmt : string)
  (ap : va_list) :
  exists b,
    webhdfs_req_set_args req frmt ap = (0, set_buffer req b)
    /\ ((forall k, alloc_ok k = true) ->
        blob b = blob (buffer req) ++ vsprintf frmt ap)
    /\ (fst (buffer_append_vformat (buffer req) frmt ap) <> 0 ->
        b = buffer req).
Proof.
  unfold webhdfs_req_set_args.
  destruct (buffer_append_vformat_cases (buffer req) frmt ap) as [[c H]|H].
  - rewrite H. eexists. split; [reflexivity |]. split.
    + intros _. reflexivity.
    + cbn. intros N. now elim N.
  - destruct (buffer_append_vformat (buffer req) frmt ap) as [r b] eqn:E.
    inversion H; subst. exists (buffer req).
    split; [reflexivity |]. split; [| reflexivity].
    intros Hall. destruct (buffer_append_vformat_granted (buffer req) frmt ap Hall)
      as [c G]. rewrite G in E. inversion E. now elim ENOMEM_nonzero.
Qed.

(** X11.  [webhdfs_req_set_args] changes nothing of the request but the
    buffer: when the allocator grants the growth, the formatted text is
    added at the end of what the buffer holds; when the append fails,
    the request is exactly as it was.  The upload capability, its data
    and the status code are never touched. *)
Theorem webhdfs_req_set_args_appends (req : webhdfs_req_t) (frmt : string)
  (ap : va_list) :
  exists b,
    snd (webhdfs_req_set_args req frmt ap) = set_buffer req b
    /\ ((forall k, alloc_ok k = true) ->
        blob b = blob (buffer req) ++ vsprintf frmt ap)
    /\ (fst (buffer_append_vformat (buffer req) frmt ap) <> 0 ->
        snd (webhdfs_req_set_args req frmt ap) = req).
Proof.
  destruct (webhdfs_req_set_args_spec req frmt ap) as (b & E & G & N).
  exists b. rewrite E. cbn [snd]. split; [reflexivity |].
  split; [exact G |]. intros H. rewrite (N H). apply set_buffer_same.
Qed.

(** X12.  Building, parameterising and executing compose: after
    [webhdfs_req_open] on a path with a leading slash and
    [webhdfs_req_set_args], with an allocator that grants every
    request, the execution consists of one transfer whose target is
    the base URL followed by the formatted parameters (read as a C
    string), and the outbound adapter never runs. *)
Theorem open_set_args_exec_target (req : webhdfs_req_t) (fs : webhdfs_t)
  (p frmt : string) (ap : va_list) (type : webhdfs_req_type)
  (error : option string) :
  curl_easy_init_ok = true ->
  (forall k, alloc_ok k = true) ->
  exists h,
    performs_of
      (w_trace
         (snd (webhdfs_req_exec
                 (snd (webhdfs_req_set_args
                         (snd (webhdfs_req_open req fs (Some (String "/" p))))
                         frmt ap))
                 type error))) = [h]
    /\ url_of (options h)
       = Some (CStr.c_str
                 (((if use_ssl (conf fs) =? 0 then "http" else "https")
                   ++ "://" ++ hdfs_host (conf fs)
                   ++ ":" ++ CStr.decimal (webhdfs_port (conf fs))
                   ++ "/webhdfs/v1/" ++ p ++ "?"
                   ++ match hdfs_user (conf fs) with
                      | Some user => "user.name=" ++ user ++ "&"
                      | None => EmptyString
                      end
                   ++ match token (conf fs) with
                      | Some tok => "delegation=" ++ tok ++ "&"
                      | None => EmptyString
                      end)
                  ++ vsprintf frmt ap))
    /\ read_returns
         (w_trace
            (snd (webhdfs_req_exec
                    (snd (webhdfs_req_set_args
                            (snd (webhdfs_req_open req fs
                                    (Some (String "/" p))))
                            frmt ap))
                    type error))) = [].
Proof.
  intros Hinit Hall.
  destruct (webhdfs_req_open req fs (Some (String "/" p))) as [r req1] eqn:E1.
  destruct (webhdfs_req_open_spec req fs _ r req1 E1) as [G K].
  specialize (K (G Hall)). cbn [CStr.plus1] in K.
  pose proof (webhdfs_req_open_fields req fs (Some (String "/" p))) as (U & _).
  rewrite E1 in U. cbn [snd] in *.
  destruct (webhdfs_req_set_args_spec req1 frmt ap) as (b & E2 & B & _).
  rewrite E2. cbn [snd].
  destruct (exec_plain_facts (set_buffer req1 b) type error Hinit U)
    as (h & P & _ & _ & R & _ & _ & _ & _ & N).
  cbn [buffer set_buffer] in N.
  exists h. split; [exact P |]. split; [| exact R].
  rewrite <- K, <- (B Hall). apply N. cbn [buffer set_buffer].
  rewrite (B Hall), K.
  destruct (use_ssl (conf fs) =? 0); discriminate.
Qed.

(** ** Further properties of the decoder *)

(** X13.  [webhdfs_req_json_response] returns a document only when the
    buffer is not empty and the parser produced that document from the
    buffer read as a C string; then nothing is printed.  Whatever it
    prints is at most one line of at most 1040 bytes: the parser's
    text is cut to the 1023 bytes its error buffer can hold. *)
Theorem webhdfs_req_json_response_document (req : webhdfs_req_t) :
  (forall node,
     fst (webhdfs_req_json_response req) = Some node <->
     size (buffer req) <> 0
     /\ yajl_tree_parse (CStr.c_str (blob (buffer req))) = inl node)
  /\ (forall node,
        fst (webhdfs_req_json_response req) = Some node ->
        snd (webhdfs_req_json_response req) = [])
  /\ (length (snd (webhdfs_req_json_response req)) <= 1)%nat
  /\ (forall line,
        In line (snd (webhdfs_req_json_response req)) ->
        (String.length line <= 1040)%nat).
Proof.
  unfold webhdfs_req_json_response.
  destruct (size (buffer req) =? 0) eqn:Hs.
  - apply Z.eqb_eq in Hs. cbn [fst snd].
    split. { intros node; split; [discriminate | intros [N _]; now elim N]. }
    split. { discriminate. }
    split. { cbn; lia. }
    intros line [].
  - apply Z.eqb_neq in Hs.
    destruct (yajl_tree_parse (CStr.c_str (blob (buffer req)))) as [n|msg];
      cbn [fst snd].
    + split. { intros node; split; [intros H; split; [exact Hs | congruence]
                                   | intros [_ H]; congruence]. }
      split. { reflexivity. }
      split. { cbn; lia. }
      intros line [].
    + split. { intros node; split; [discriminate | intros [_ H]; discriminate]. }
      split. { discriminate. }
      split. { cbn; lia. }
      intros line [<-|[]].
      change (vsprintf "response-parse: %s" [va_str (CStr.take (1024 - 1) msg)])
        with ("response-parse: " ++ (CStr.take (1024 - 1) msg ++ EmptyString)).
      rewrite !str_length_app. cbn [String.length newline].
      pose proof (str_length_take_le (Z.to_nat (1024 - 1)) msg) as L.
      unfold CStr.take.
      change (Z.to_nat (1024 - 1)) with 1023%nat in *. lia.
Qed.

(** ** Allocation failure while receiving *)

(** X14.  When the first chunk of a download does not fit the storage
    the buffer holds and the allocator refuses the growth, the inbound
    adapter's 0 aborts the transfer: the call returns 1, the buffer is
    empty at return, and the error string (if its 512 bytes are
    granted) is the engine's description of the write error followed
    by " (url: ", the text the buffer's pointer led to when the call
    was made (the request URL, when the buffer held one) and ")", cut
    to 511 bytes: clearing the buffer does not erase its storage. *)
Theorem plain_exec_append_failure (req : webhdfs_req_t)
  (type : webhdfs_req_type) (error : option string) (bytes : string) :
  curl_easy_init_ok = true ->
  upload req = None ->
  (forall h, exists rest, actions (network h) = Deliver bytes :: rest) ->
  capacity (buffer req) < CStr.len bytes <= SIZE_MAX ->
  0 < CStr.len bytes ->
  alloc_ok (CStr.len bytes) = false ->
  fst (fst (webhdfs_req_exec req type error)) = 1
  /\ blob (buffer (w_req (snd (webhdfs_req_exec req type error))))
     = EmptyString
  /\ snd (fst (webhdfs_req_exec req type error))
     = (if alloc_ok 512 then
          Some (substring 0 511
                  (curl_easy_strerror CURLE_WRITE_ERROR
                   ++ " (url: " ++ blob_text (buffer req) ++ ")"))
        else None).
Proof.
  intros Hinit Hup Hacts [Hcap Hmax] Hpos Hno.
  rewrite (webhdfs_req_exec_plain req type error Hinit Hup).
  destruct (configured_lookup req type) as (K1 & K2 & K3 & K4).
  unfold curl_easy_perform.
  destruct (Hacts (configured req type)) as [rest ->].
  cbn [run_callbacks]. rewrite K4.
  unfold __webhdfs_req_write.
  rewrite size_mul_1 by lia.
  unfold buffer_append, size.
  cbn [start clear_req_buffer put_req w_req set_buffer buffer buffer_clear
       blob capacity emit].
  change (CStr.len EmptyString) with 0. rewrite Z.add_0_l.
  replace (CStr.len bytes <=? capacity (buffer req)) with false
    by (symmetry; apply Z.leb_gt; lia).
  rewrite Hno.
  replace (negb (ENOMEM =? 0)) with true
    by (symmetry; apply negb_true_iff, Z.eqb_neq, ENOMEM_nonzero).
  replace (0 =? CStr.len bytes) with false
    by (symmetry; apply Z.eqb_neq; lia).
  cbn [finish fst snd w_req put_req set_rcode buffer blob emit].
  split; [reflexivity |]. split; [reflexivity |].
  destruct (alloc_ok 512); [| reflexivity].
  change (CURLE_WRITE_ERROR =? 0) with false. cbn match.
  rewrite snprintf_error_message. reflexivity.
Qed.

(** X16.  A download returns the body as it arrived: for a request
    without upload capability, an allocator that grants every request
    and chunks that fit [size_t], the buffer at return is the
    concatenation, in order, of all the chunks the engine delivered in
    the one transfer, and the call returns 0 exactly when the engine
    reports success for that transfer. *)
Theorem plain_exec_response_body (req : webhdfs_req_t)
  (type : webhdfs_req_type) (error : option string) :
  curl_easy_init_ok = true ->
  upload req = None ->
  (forall k, alloc_ok k = true) ->
  (forall h, chunks_fit (actions (network h)) = true) ->
  exists h,
    performs_of (w_trace (snd (webhdfs_req_exec req type error))) = [h]
    /\ blob (buffer (w_req (snd (webhdfs_req_exec req type error))))
       = delivered (actions (network h))
    /\ (fst (fst (webhdfs_req_exec req type error)) = 0
        <-> result (network h) = 0).
Proof.
  intros Hinit Hup Hall Hfit.
  destruct (exec_plain_facts req type error Hinit Hup) as (h & P & L & _).
  exists h. split; [exact P |]. revert P.
  rewrite (webhdfs_req_exec_plain req type error Hinit Hup).
  destruct (configured_lookup req type) as (K1 & K2 & K3 & K4).
  destruct (curl_easy_perform (configured req type)
              (clear_req_buffer (start req))) as [[err curl] w] eqn:E.
  pose proof E as G.
  apply (curl_easy_perform_granted _ _ _ _ _ Hall K4 (Hfit _)) in G.
  destruct G as [G1 G2].
  apply curl_easy_perform_spec in E.
  destruct E as (evs & T & _ & F & _).
  cbn [finish fst snd w_trace put_req w_req set_rcode buffer].
  rewrite T. cbn [start clear_req_buffer put_req w_trace app performs_of].
  rewrite (callback_events_no_perform _ _ F).
  intros P. inversion P; subst h. split; [exact G2 |].
  rewrite G1. destruct (result (network (configured req type)) =? 0) eqn:R.
  - apply Z.eqb_eq in R. split; intros _; [exact R | reflexivity].
  - apply Z.eqb_neq in R. split; [discriminate | intros H; now elim R].
Qed.

(** ** Binding an upload *)

(** X15.  What [webhdfs_req_set_upload] binds decides the shape of the
    execution: with a producer the call makes two transfers, with NULL
    as producer (whatever the data pointer) it makes one; in both cases
    the first transfer goes to the text the buffer's pointer led to,
    which is the URL the buffer held, read as a C string, whenever the
    buffer was not empty; and binding itself always returns 0. *)
Theorem set_upload_decides_phases (req : webhdfs_req_t)
  (func : option webhdfs_upload_t) (data : option user_data)
  (type : webhdfs_req_type) (error : option string) :
  curl_easy_init_ok = true ->
  fst (webhdfs_req_set_upload req func data) = 0
  /\ length (performs_of
               (w_trace
                  (snd (webhdfs_req_exec
                          (snd (webhdfs_req_set_upload req func data))
                          type error))))
     = match func with Some _ => 2%nat | None => 1%nat end
  /\ option_map (fun h => url_of (options h))
       (hd_error
          (performs_of
             (w_trace
                (snd (webhdfs_req_exec
                        (snd (webhdfs_req_set_upload req func data))
                        type error)))))
     = Some (blob_ptr (buffer req))
  /\ (blob (buffer req) <> EmptyString ->
      option_map (fun h => url_of (options h))
        (hd_error
           (performs_of
              (w_trace
                 (snd (webhdfs_req_exec
                         (snd (webhdfs_req_set_upload req func data))
                         type error)))))
      = Some (Some (CStr.c_str (blob (buffer req))))).
Proof.
  intros Hinit. split; [reflexivity |].
  assert (length (performs_of
               (w_trace
                  (snd (webhdfs_req_exec
                          (snd (webhdfs_req_set_upload req func data))
                          type error))))
     = match func with Some _ => 2%nat | None => 1%nat end
  /\ option_map (fun h => url_of (options h))
       (hd_error
          (performs_of
             (w_trace
                (snd (webhdfs_req_exec
                        (snd (webhdfs_req_set_upload req func data))
                        type error)))))
     = Some (blob_ptr (buffer req))) as [A B].
  { destruct func as [f|].
    - destruct (exec_upload_facts
                  (snd (webhdfs_req_set_upload req (Some f) data))
                  type error f Hinit eq_refl)
        as (curl1 & e1 & e2 & w' & E & O & R & P & _).
      destruct (configured_lookup
                  (snd (webhdfs_req_set_upload req (Some f) data))
                  type) as (K1 & _).
      rewrite E. cbn [snd]. rewrite P. cbn [length hd_error option_map].
      split; [reflexivity |]. now rewrite K1.
    - destruct (exec_plain_facts (snd (webhdfs_req_set_upload req None data))
                  type error Hinit eq_refl) as (h & P & L & _).
      rewrite P. cbn [length hd_error option_map].
      split; [reflexivity |]. now rewrite L. }
  split; [exact A |]. split; [exact B |].
  intros Hne. rewrite B. now rewrite (blob_ptr_nonempty _ Hne).
Qed.

End Environment.

(** * A concrete environment

    A namenode [nn] that redirects uploads to the datanode [dn1], an
    allocator that grants every request (and two that do not), a
    producer that hands out a string piece by piece, and a parser that
    accepts one document.  The general theorems are applied to it, and
    the behaviour of the code is evaluated on it. *)

Module Demo.

Definition alloc_ok (n : Z) : bool := true.
Definition out_of_memory (n : Z) : bool := false.
Definition short_of_512 (n : Z) : bool := n <? 512.

Definition ENOMEM : Z := 12.

Lemma ENOMEM_nonzero : ENOMEM <> 0.
Proof. discriminate. Qed.

(** The caller's upload state: the bytes still to be sent. *)
Definition producer : webhdfs_upload_t string :=
  fun n data =>
    match data with
    | Some s =>
        let chunk := CStr.take n s in
        (CStr.len chunk, chunk,
         Some (substring (String.length chunk) (String.length s) s))
    | None => (0, EmptyString, None)
    end.

Definition plain_conf : webhdfs_conf_t :=
  {| use_ssl := 0; hdfs_host := "nn"; webhdfs_port := 50070;
     hdfs_user := Some "hdfs"; token := None |}.

Definition secure_conf : webhdfs_conf_t :=
  {| use_ssl := 1; hdfs_host := "nn"; webhdfs_port := 50470;
     hdfs_user := None; token := Some "T0K3N" |}.

(** The C library's formatter for the directives [vsprintf] leaves to
    it: this one knows the octal directive as well. *)
Fixpoint octal_digits (fuel : nat) (n : Z) (acc : string) : string :=
  match fuel with
  | O => acc
  | S fuel' =>
      let acc' := String (ascii_of_nat (48 + Z.to_nat (n mod 8))) acc in
      if n / 8 =? 0 then acc' else octal_digits fuel' (n / 8) acc'
  end.

Definition octal (n : Z) : string := octal_digits 11 (n mod 2 ^ 32) EmptyString.

Fixpoint libc_format (frmt : string) (ap : va_list) : string :=
  match frmt with
  | EmptyString => EmptyString
  | String "%" (String "o" rest) =>
      match ap with
      | va_int d :: ap' => octal d ++ libc_format rest ap'
      | _ => EmptyString
      end
  | String "%" (String "s" rest) =>
      match ap with
      | va_str s :: ap' => s ++ libc_format rest ap'
      | _ => EmptyString
      end
  | String "%" (String "d" rest) =>
      match ap with
      | va_int d :: ap' => CStr.decimal d ++ libc_format rest ap'
      | _ => EmptyString
      end
  | String "%" (String "%" rest) => String "%" (libc_format rest ap)
  | String c rest => String c (libc_format rest ap)
  end.

(** What the memory holds after the terminator of an empty path. *)
Definition past_terminator : string := "PATH=/usr/bin".

Definition blank : webhdfs_req_t string :=
  {| buffer := {| blob := EmptyString; capacity := 0; behind := None |};
     upload := None; upload_data := None; rcode := 0 |}.

Definition opened : webhdfs_req_t string :=
  snd (webhdfs_req_open libc_format past_terminator alloc_ok ENOMEM string
         blank {| conf := plain_conf |} (Some "/tmp/f")).

Definition create_req : webhdfs_req_t string :=
  snd (webhdfs_req_set_args libc_format alloc_ok ENOMEM string opened
         "op=%s&overwrite=%s" [va_str "CREATE"; va_str "true"]).

Definition upload_req : webhdfs_req_t string :=
  snd (webhdfs_req_set_upload string create_req (Some producer)
         (Some "hello world")).

Definition nn_url : string :=
  "http://nn:50070/webhdfs/v1/tmp/f?user.name=hdfs&op=CREATE&overwrite=true".

Definition dn_url : string :=
  "http://dn1:50075/webhdfs/v1/tmp/f?op=CREATE&user.name=hdfs&overwrite=true".

(** The namenode answers with a redirect and a short body, which the
    engine follows to the datanode if it is set to; what the datanode
    does is the parameter. *)
Definition network_with (datanode : transfer) (curl : CURL) : transfer :=
  match url_of (options curl) with
  | Some url =>
      if String.eqb url nn_url then
        if followlocation_of (options curl) =? 0 then
          {| actions := [Deliver "Temporary"; Deliver " Redirect"];
             result := 0; redirect_url := Some dn_url; response_code := 307 |}
        else datanode
      else if String.eqb url dn_url then datanode
      else {| actions := []; result := 6; redirect_url := None;
              response_code := 0 |}
    | None => {| actions := []; result := 3; redirect_url := None;
                 response_code := 0 |}
  end.

(** The datanode takes the body in pieces of at most eight bytes and
    answers 201 with a short body. *)
Definition datanode_created : transfer :=
  {| actions := [Pull 8; Pull 8; Pull 8; Deliver "crea"; Deliver "ted"];
     result := 0; redirect_url := None; response_code := 201 |}.

(** The datanode answers 200 with an empty JSON object. *)
Definition datanode_status : transfer :=
  {| actions := [Deliver "{"; Deliver "}"];
     result := 0; redirect_url := None; response_code := 200 |}.

(** The datanode cannot be reached. *)
Definition datanode_refused : transfer :=
  {| actions := []; result := 7; redirect_url := None; response_code := 0 |}.

Definition network : CURL -> transfer := network_with datanode_created.
Definition network_refused : CURL -> transfer := network_with datanode_refused.

(** Every transfer breaks off after part of the body has arrived. *)
Definition network_partial (curl : CURL) : transfer :=
  {| actions := [Deliver "<html>"]; result := 18; redirect_url := None;
     response_code := 200 |}.

Definition curl_easy_strerror (code : Z) : string :=
  if code =? 0 then "No error"
  else if code =? 3 then "URL using bad/illegal format or missing URL"
  else if code =? 6 then "Couldn't resolve host name"
  else if code =? 7 then "Couldn't connect to server"
  else if code =? 18 then "Transferred a partial file"
  else if code =? 23 then "Failed writing received data to disk/application"
  else "Unknown error".

(** A parser that knows the empty object only. *)
Definition yajl_tree_parse (input : string) : unit + string :=
  if String.eqb input "{}" then inl tt
  else inr "lexical error: invalid char in json text.".

Definition exec (init_ok : bool) (net : CURL -> transfer)
  (req : webhdfs_req_t string) (type : webhdfs_req_type)
  : Z * option string * world string :=
  webhdfs_req_exec libc_format alloc_ok ENOMEM string init_ok net
    curl_easy_strerror req type None.

(** A download that breaks off, and an upload the datanode refuses. *)
Definition partial_get : Z * option string * world string :=
  exec true network_partial create_req WEBHDFS_REQ_GET.


(** The targets of the transfers that were started, in order. *)
Fixpoint performed_urls (evs : list event) : list (option string) :=
  match evs with
  | [] => []
  | EvPerform h :: evs' => url_of (options h) :: performed_urls evs'
  | _ :: evs' => performed_urls evs'
  end.

(** The runs of the outbound adapter: the target of the transfer it
    ran in and the value it returned. *)
Fixpoint adapter_reads (evs : list event) : list (option string * Z) :=
  match evs with
  | [] => []
  | EvRead url _ _ ret :: evs' => (url, ret) :: adapter_reads evs'
  | _ :: evs' => adapter_reads evs'
  end.

Lemma network_chunks_fit (datanode : transfer) (curl : CURL) :
  chunks_fit (actions datanode) = true ->
  chunks_fit (actions (network_with datanode curl)) = true.
Proof.
  intros H. unfold network_with.
  destruct (url_of (options curl)) as [url|]; [| reflexivity].
  destruct (String.eqb url nn_url).
  - destruct (followlocation_of (options curl) =? 0); [reflexivity | exact H].
  - destruct (String.eqb url dn_url); [exact H | reflexivity].
Qed.

(** The namenode's answer breaks off, but the engine still knows the
    redirect target; the datanode takes the upload. *)
Definition network_flaky (curl : CURL) : transfer :=
  match url_of (options curl) with
  | Some url =>
      if String.eqb url nn_url then
        {| actions := []; result := 18; redirect_url := Some dn_url;
           response_code := 307 |}
      else datanode_created
  | None => datanode_refused
  end.

(** An allocator that grants the 512 bytes of an error string and
    nothing else, and a transfer whose first chunk has 80 bytes. *)
Definition only_512 (n : Z) : bool := n =? 512.

Definition flood : string :=
  "0123456789012345678901234567890123456789012345678901234567890123456789012345678X".

Definition network_flood (curl : CURL) : transfer :=
  {| actions := [Deliver flood; Deliver "tail"]; result := 0;
     redirect_url := None; response_code := 200 |}.

(** The namenode takes the upload itself: it names its own URL as the
    redirect target and accepts the body when it is sent there. *)
Definition network_self (curl : CURL) : transfer :=
  match httpheader_of (options curl) with
  | [] =>
      {| actions := [Deliver "Temporary Redirect"]; result := 0;
         redirect_url := Some nn_url; response_code := 307 |}
  | _ :: _ => datanode_created
  end.

Lemma network_fits (curl : CURL) :
  chunks_fit (actions (network curl)) = true.
Proof. apply network_chunks_fit. reflexivity. Qed.

Lemma network_flaky_fits (curl : CURL) :
  chunks_fit (actions (network_flaky curl)) = true.
Proof.
  unfold network_flaky.
  destruct (url_of (options curl)) as [url|]; [| reflexivity].
  destruct (String.eqb url nn_url); reflexivity.
Qed.

End Demo.

(** ** The code on the concrete environment *)

Example opened_url :
  blob (buffer string Demo.opened)
  = "http://nn:50070/webhdfs/v1/tmp/f?user.name=hdfs&".
Proof. reflexivity. Qed.

Example create_url :
  blob (buffer string Demo.create_req) = Demo.nn_url.
Proof. reflexivity. Qed.

Example upload_run :
  let r := Demo.exec true Demo.network Demo.upload_req WEBHDFS_REQ_PUT in
  fst r = (0, None)
  /\ Demo.performed_urls (w_trace string (snd r))
     = [Some Demo.nn_url; Some Demo.dn_url]
  /\ blob (buffer string (w_req string (snd r))) = "created"
  /\ rcode string (w_req string (snd r)) = 201
  /\ upload_data string (w_req string (snd r)) = Some EmptyString.
Proof. vm_compute. repeat split. Qed.

Example upload_run_reads :
  Demo.adapter_reads
    (w_trace string
       (snd (Demo.exec true Demo.network Demo.upload_req WEBHDFS_REQ_PUT)))
  = [(Some Demo.dn_url, 8); (Some Demo.dn_url, 3); (Some Demo.dn_url, 0)].
Proof. reflexivity. Qed.

Example download_run :
  let r := Demo.exec true (Demo.network_with Demo.datanode_status)
             Demo.create_req WEBHDFS_REQ_GET in
  fst r = (0, None)
  /\ Demo.performed_urls (w_trace string (snd r)) = [Some Demo.nn_url]
  /\ Demo.adapter_reads (w_trace string (snd r)) = []
  /\ blob (buffer string (w_req string (snd r))) = "{}"
  /\ rcode string (w_req string (snd r)) = 200
  /\ webhdfs_req_json_response Demo.libc_format string unit Demo.yajl_tree_parse
       (w_req string (snd r)) = (Some tt, []).
Proof. vm_compute. repeat split. Qed.

(** ** The theorems at concrete inputs *)

Lemma webhdfs_req_open_url_witness :
  Demo.ENOMEM <> 0
  /\ (forall k, Demo.alloc_ok k = true)
  /\ fst (webhdfs_req_open Demo.libc_format Demo.past_terminator Demo.alloc_ok
      Demo.ENOMEM string Demo.blank
            {| conf := Demo.secure_conf |} (Some "/user/alice/data.csv")) = 0
  /\ blob (buffer string
             (snd (webhdfs_req_open Demo.libc_format Demo.past_terminator
                 Demo.alloc_ok Demo.ENOMEM string Demo.blank
                     {| conf := Demo.secure_conf |}
                     (Some "/user/alice/data.csv"))))
     = "https://nn:50470/webhdfs/v1/user/alice/data.csv?delegation=T0K3N&".
Proof.
  split; [discriminate |]. split; [reflexivity |].
  destruct (webhdfs_req_open_url Demo.libc_format Demo.past_terminator
      Demo.alloc_ok Demo.ENOMEM Demo.ENOMEM_nonzero
              string Demo.blank {| conf := Demo.secure_conf |}
              "user/alice/data.csv" _ _ eq_refl) as [G K].
  split; [exact (G (fun _ => eq_refl)) | exact (K eq_refl)].
Defined.

Lemma webhdfs_req_write_accepts_witness :
  __webhdfs_req_write Demo.alloc_ok Demo.ENOMEM string "created" 1 7 Demo.blank
  = (7, set_buffer string Demo.blank {| blob := "created"; capacity := 7; behind
      := Some "created" |})
  /\ __webhdfs_req_write Demo.out_of_memory Demo.ENOMEM string "created" 1 7
       Demo.blank
     = (0, Demo.blank).
Proof.
  split.
  - exact (proj1 (proj1 (webhdfs_req_write_accepts Demo.alloc_ok Demo.ENOMEM
                           Demo.ENOMEM_nonzero string "created" 1 7 Demo.blank
                           0 {| blob := "created"; capacity := 7; behind := Some
                               "created" |} eq_refl)
                    eq_refl)).
  - exact (proj2 (webhdfs_req_write_accepts Demo.out_of_memory Demo.ENOMEM
                    Demo.ENOMEM_nonzero string "created" 1 7 Demo.blank
                    Demo.ENOMEM (buffer string Demo.blank) eq_refl)
             Demo.ENOMEM_nonzero).
Defined.

Lemma webhdfs_req_exec_init_failure_witness :
  false = false
  /\ Demo.exec false Demo.network Demo.upload_req WEBHDFS_REQ_PUT
     = (1, None,
        {| w_req := Demo.upload_req; w_stderr := []; w_trace := [] |}).
Proof.
  split; [reflexivity |].
  exact (webhdfs_req_exec_init_failure Demo.libc_format Demo.alloc_ok
      Demo.ENOMEM string false
           Demo.network Demo.curl_easy_strerror Demo.upload_req
           WEBHDFS_REQ_PUT None eq_refl).
Defined.

Lemma upload_after_redirect_witness :
  upload string Demo.upload_req = Some Demo.producer
  /\ exists (h1 h2 : CURL) (target : option string) (evs1 evs2 : list event),
       w_trace string
         (snd (Demo.exec true Demo.network Demo.upload_req WEBHDFS_REQ_PUT))
       = (EvPerform h1 :: evs1
          ++ EvGetRedirect target :: EvPerform h2 :: evs2)%list
       /\ url_of (options h1) = blob_ptr (buffer string Demo.upload_req)
       /\ target = redirect_url (Demo.network h1)
       /\ url_of (options h2) = target
       /\ Forall (fun e => match e with
                           | EvWrite _ _ _ _ => True
                           | _ => False
                           end) evs1
       /\ Forall (fun e => match e with
                           | EvWrite _ _ _ _ => True
                           | EvRead url _ _ _ => url = target
                           | _ => False
                           end) evs2
       /\ (target <> url_of (options h1) ->
           Forall (fun e => match e with
                            | EvRead url _ _ _ => url <> url_of (options h1)
                            | _ => True
                            end) evs2).
Proof.
  split; [reflexivity |].
  exact (upload_after_redirect Demo.libc_format Demo.alloc_ok Demo.ENOMEM
      Demo.ENOMEM_nonzero
           string true Demo.network Demo.curl_easy_strerror Demo.upload_req
           WEBHDFS_REQ_PUT None Demo.producer eq_refl eq_refl).
Defined.

Lemma followlocation_iff_no_upload_witness :
  (exists h,
     In (EvPerform h)
       (w_trace string
          (snd (Demo.exec true Demo.network Demo.create_req WEBHDFS_REQ_GET))))
  /\ forall h,
       In (EvPerform h)
         (w_trace string
            (snd (Demo.exec true Demo.network Demo.create_req WEBHDFS_REQ_GET)))
       -> (followlocation_of (options h) <> 0
           <-> upload string Demo.create_req = None).
Proof.
  exact (followlocation_iff_no_upload Demo.libc_format Demo.alloc_ok Demo.ENOMEM
           Demo.ENOMEM_nonzero string true Demo.network
           Demo.curl_easy_strerror Demo.create_req WEBHDFS_REQ_GET None
           eq_refl).
Defined.


(** The first transfer of that upload did deliver bytes to the inbound
    adapter; they are gone from the buffer at return. *)
Example upload_run_first_phase_bytes :
  accepted_bytes
    (w_trace string
       (snd (Demo.exec true Demo.network Demo.upload_req WEBHDFS_REQ_PUT)))
  = "Temporary Redirectcreated".
Proof. reflexivity. Qed.

Lemma webhdfs_req_exec_error_message_witness :
  fst (fst Demo.partial_get) <> 0
  /\ exists (before : list event) (h : CURL) (evs : list event),
       w_trace string (snd Demo.partial_get)
       = (before ++ EvPerform h :: evs)%list
       /\ Forall (callback_event_of h) evs
       /\ transfer_code (Demo.network_partial h) evs <> 0
       /\ (Demo.alloc_ok 512 = true ->
           exists msg,
             snd (fst Demo.partial_get) = Some msg
             /\ msg = substring 0 511
                        (Demo.curl_easy_strerror
                           (transfer_code (Demo.network_partial h) evs)
                         ++ " (url: "
                         ++ blob_text
                              (buffer string
                                 (w_req string (snd Demo.partial_get)))
                         ++ ")")
             /\ msg <> EmptyString
             /\ prefix (substring 0 511
                          (Demo.curl_easy_strerror
                             (transfer_code (Demo.network_partial h) evs)))
                  msg = true)
       /\ (Demo.alloc_ok 512 = false -> snd (fst Demo.partial_get) = None).
Proof.
  assert (N : fst (fst Demo.partial_get) <> 0) by discriminate.
  split; [exact N |].
  exact (webhdfs_req_exec_error_message Demo.libc_format Demo.alloc_ok
           Demo.ENOMEM Demo.ENOMEM_nonzero string true Demo.network_partial
           Demo.curl_easy_strerror Demo.create_req WEBHDFS_REQ_GET None
           eq_refl (fst (fst Demo.partial_get)) (snd (fst Demo.partial_get))
           (snd Demo.partial_get) eq_refl N).
Defined.

Example partial_get_message :
  snd (fst (Demo.exec true Demo.network_partial Demo.create_req
              WEBHDFS_REQ_GET))
  = Some "Transferred a partial file (url: <html>)".
Proof. reflexivity. Qed.

Lemma webhdfs_req_json_response_absent_witness :
  webhdfs_req_json_response Demo.libc_format string unit Demo.yajl_tree_parse
    (set_buffer string Demo.blank (buffer_clear (buffer string Demo.opened)))
  = (None, [])
  /\ exists diagnostic,
       webhdfs_req_json_response Demo.libc_format string unit
           Demo.yajl_tree_parse
         (set_buffer string Demo.blank {| blob := "<html>"; capacity := 6;
             behind := Some "<html>" |})
       = (None, [diagnostic])
       /\ diagnostic <> EmptyString
       /\ prefix "response-parse: " diagnostic = true.
Proof.
  split.
  - exact (proj1 (webhdfs_req_json_response_absent Demo.libc_format string unit
                    Demo.yajl_tree_parse
                    (set_buffer string Demo.blank
                       (buffer_clear (buffer string Demo.opened))))
             eq_refl).
  - refine (proj2 (webhdfs_req_json_response_absent Demo.libc_format string unit
                     Demo.yajl_tree_parse
                     (set_buffer string Demo.blank
                        {| blob := "<html>"; capacity := 6; behind := Some
                            "<html>" |}))
              _ _ eq_refl).
    discriminate.
Defined.

Example decode_malformed :
  webhdfs_req_json_response Demo.libc_format string unit Demo.yajl_tree_parse
    (set_buffer string Demo.blank {| blob := "<html>"; capacity := 6; behind :=
        Some "<html>" |})
  = (None,
     ["response-parse: lexical error: invalid char in json text."
      ++ newline]).
Proof. reflexivity. Qed.

Example decode_document :
  webhdfs_req_json_response Demo.libc_format string unit Demo.yajl_tree_parse
    (set_buffer string Demo.blank {| blob := "{}"; capacity := 2; behind := Some
        "{}" |})
  = (Some tt, []).
Proof. reflexivity. Qed.

(** ** Where the code departs from what is said of it *)

(** C4, as stated, fails: an error result can come without any error
    string.  First input: the engine yields no handle; the call returns
    1 and the caller's error pointer, NULL before the call, is still
    NULL.  Second input: the terminal transfer fails and the allocator
    refuses the 512 bytes of the message; the call returns 1 and the
    error pointer is NULL. *)
Lemma exec_error_without_message :
  (let r := webhdfs_req_exec Demo.libc_format Demo.alloc_ok Demo.ENOMEM string
      false
              Demo.network Demo.curl_easy_strerror Demo.create_req
              WEBHDFS_REQ_GET None in
   fst (fst r) = 1 /\ snd (fst r) = None)
  /\ (let r := webhdfs_req_exec Demo.libc_format Demo.short_of_512 Demo.ENOMEM
      string true
                 Demo.network_partial Demo.curl_easy_strerror Demo.create_req
                 WEBHDFS_REQ_GET None in
      fst (fst r) = 1 /\ snd (fst r) = None).
Proof. vm_compute. repeat split. Qed.

(** C3, evaluated.  An upload whose first transfer is redirected from
    the namenode to the datanode and whose second transfer cannot
    connect: the transfer that failed was to the datanode URL; the
    error string is the engine's description followed by the text
    behind the buffer's pointer, and the buffer, cleared before that
    transfer, has received nothing since, so that text is the body of
    the namenode's answer, still in the storage; the datanode URL is
    not in it.  And a download that breaks off after part of the body:
    the error string carries the received bytes where the URL is
    announced, not the URL that was accessed. *)
Theorem error_message_lacks_accessed_url :
  (let r := Demo.exec true Demo.network_refused Demo.upload_req
              WEBHDFS_REQ_PUT in
   fst (fst r) = 1
   /\ Demo.performed_urls (w_trace string (snd r))
      = [Some Demo.nn_url; Some Demo.dn_url]
   /\ snd (fst r)
      = Some "Couldn't connect to server (url: Temporary Redirect)"
   /\ CStr.contains Demo.dn_url
        "Couldn't connect to server (url: Temporary Redirect)" = false)
  /\ (let r := Demo.exec true Demo.network_partial Demo.create_req
                 WEBHDFS_REQ_GET in
      fst (fst r) = 1
      /\ Demo.performed_urls (w_trace string (snd r)) = [Some Demo.nn_url]
      /\ snd (fst r) = Some "Transferred a partial file (url: <html>)"
      /\ CStr.contains Demo.nn_url "Transferred a partial file (url: <html>)"
         = false).
Proof. vm_compute. repeat split. Qed.

(** C1, as stated, fails: the outbound adapter can run against the
    original URL.  The namenode names its own URL as the redirect
    target: both transfers go to the URL the buffer held, and all three
    runs of the outbound adapter are in a transfer to that URL. *)
Lemma upload_adapter_against_original_url :
  let r := Demo.exec true Demo.network_self Demo.upload_req WEBHDFS_REQ_PUT in
  upload string Demo.upload_req = Some Demo.producer
  /\ blob_ptr (buffer string Demo.upload_req) = Some Demo.nn_url
  /\ fst r = (0, None)
  /\ Demo.performed_urls (w_trace string (snd r))
     = [Some Demo.nn_url; Some Demo.nn_url]
  /\ Demo.adapter_reads (w_trace string (snd r))
     = [(Some Demo.nn_url, 8); (Some Demo.nn_url, 3); (Some Demo.nn_url, 0)].
Proof. vm_compute. repeat split. Qed.


(** C5, evaluated.  The allocator refuses the growth; the formatted
    append reports the failure with its non-zero code and leaves the
    buffer as it was; [webhdfs_req_set_args] nevertheless returns 0. *)
Theorem webhdfs_req_set_args_hides_failure :
  buffer_append_vformat Demo.libc_format Demo.out_of_memory Demo.ENOMEM
    (buffer string Demo.opened) "op=%s&overwrite=%s"
    [va_str "CREATE"; va_str "true"]
  = (12, buffer string Demo.opened)
  /\ webhdfs_req_set_args Demo.libc_format Demo.out_of_memory Demo.ENOMEM string
      Demo.opened
       "op=%s&overwrite=%s" [va_str "CREATE"; va_str "true"]
     = (0, Demo.opened).
Proof. vm_compute. split; reflexivity. Qed.


(** ** Further theorems at concrete inputs *)

Lemma plain_exec_single_transfer_witness :
  upload string Demo.create_req = None
  /\ exists h,
       performs_of
         (w_trace string
            (snd (Demo.exec true (Demo.network_with Demo.datanode_status)
                    Demo.create_req WEBHDFS_REQ_GET))) = [h]
       /\ url_of (options h) = Some Demo.nn_url
       /\ blob (buffer string
                  (w_req string
                     (snd (Demo.exec true
                             (Demo.network_with Demo.datanode_status)
                             Demo.create_req WEBHDFS_REQ_GET)))) = "{}".
Proof.
  split; [reflexivity |].
  destruct (plain_exec_single_transfer Demo.libc_format Demo.alloc_ok
      Demo.ENOMEM
              Demo.ENOMEM_nonzero string true
              (Demo.network_with Demo.datanode_status)
              Demo.curl_easy_strerror Demo.create_req WEBHDFS_REQ_GET None
              eq_refl eq_refl) as (h & P & L & _).
  exists h. split; [exact P |]. split; [exact L | reflexivity].
Defined.


Lemma upload_first_failure_not_fatal_witness :
  upload string Demo.upload_req = Some Demo.producer
  /\ fst (Demo.exec true Demo.network_flaky Demo.upload_req WEBHDFS_REQ_PUT)
     = (0, None)
  /\ w_stderr string
       (snd (Demo.exec true Demo.network_flaky Demo.upload_req
               WEBHDFS_REQ_PUT))
     = ["Transferred a partial file" ++ newline]
  /\ exists h1 h2,
       performs_of
         (w_trace string
            (snd (Demo.exec true Demo.network_flaky Demo.upload_req
                    WEBHDFS_REQ_PUT))) = [h1; h2]
       /\ url_of (options h2) = redirect_url (Demo.network_flaky h1)
       /\ w_stderr string
            (snd (Demo.exec true Demo.network_flaky Demo.upload_req
                    WEBHDFS_REQ_PUT))
          = (if result (Demo.network_flaky h1) =? 0 then []
             else [Demo.curl_easy_strerror (result (Demo.network_flaky h1))
                   ++ newline])
       /\ fst (fst (Demo.exec true Demo.network_flaky Demo.upload_req
                      WEBHDFS_REQ_PUT))
          = (if result (Demo.network_flaky h2) =? 0 then 0 else 1).
Proof.
  split; [reflexivity |]. split; [reflexivity |]. split; [reflexivity |].
  exact (upload_first_failure_not_fatal Demo.libc_format Demo.alloc_ok
      Demo.ENOMEM
           Demo.ENOMEM_nonzero string true Demo.network_flaky
           Demo.curl_easy_strerror Demo.upload_req WEBHDFS_REQ_PUT None
           Demo.producer eq_refl eq_refl (fun _ => eq_refl)
           Demo.network_flaky_fits).
Defined.

Lemma upload_exec_producer_chain_witness :
  upload string Demo.upload_req = Some Demo.producer
  /\ read_returns
       (w_trace string
          (snd (Demo.exec true Demo.network Demo.upload_req WEBHDFS_REQ_PUT)))
     = [8; 3; 0]
  /\ exists h1 h2,
       performs_of
         (w_trace string
            (snd (Demo.exec true Demo.network Demo.upload_req
                    WEBHDFS_REQ_PUT))) = [h1; h2]
       /\ read_returns
            (w_trace string
               (snd (Demo.exec true Demo.network Demo.upload_req
                       WEBHDFS_REQ_PUT)))
          = fst (drain string Demo.producer (actions (Demo.network h2))
                   (upload_data string Demo.upload_req))
       /\ upload_data string
            (w_req string
               (snd (Demo.exec true Demo.network Demo.upload_req
                       WEBHDFS_REQ_PUT)))
          = snd (drain string Demo.producer (actions (Demo.network h2))
                   (upload_data string Demo.upload_req))
       /\ upload string
            (w_req string
               (snd (Demo.exec true Demo.network Demo.upload_req
                       WEBHDFS_REQ_PUT)))
          = Some Demo.producer.
Proof.
  split; [reflexivity |]. split; [reflexivity |].
  exact (upload_exec_producer_chain Demo.libc_format Demo.alloc_ok Demo.ENOMEM
           Demo.ENOMEM_nonzero string true Demo.network
           Demo.curl_easy_strerror Demo.upload_req WEBHDFS_REQ_PUT None
           Demo.producer eq_refl eq_refl (fun _ => eq_refl)
           Demo.network_fits).
Defined.

Lemma upload_transfer_configuration_witness :
  upload string Demo.upload_req = Some Demo.producer
  /\ exists h1 h2,
       performs_of
         (w_trace string
            (snd (Demo.exec true Demo.network Demo.upload_req
                    WEBHDFS_REQ_DELETE))) = [h1; h2]
       /\ httpheader_of (options h1) = []
       /\ httpheader_of (options h2) = ["Transfer-Encoding: chunked"]
       /\ put_of (options h2) = 0
       /\ post_of (options h2) = 0
       /\ customrequest_of (options h2) = Some "DELETE".
Proof.
  split; [reflexivity |].
  destruct (upload_transfer_configuration Demo.libc_format Demo.alloc_ok
      Demo.ENOMEM
              Demo.ENOMEM_nonzero string true Demo.network
              Demo.curl_easy_strerror Demo.upload_req WEBHDFS_REQ_DELETE None
              Demo.producer eq_refl eq_refl)
    as (h1 & h2 & P & (A1 & _) & (B1 & B2 & B3 & _) & M & _ & M1 & _).
  exists h1, h2. split; [exact P |]. split; [exact A1 |].
  split; [exact B1 |].
  split. { destruct (Z.eq_dec (put_of (options h2)) 0) as [E|N]; [exact E |].
           apply B2 in N. discriminate. }
  split. { destruct (Z.eq_dec (post_of (options h2)) 0) as [E|N]; [exact E |].
           apply B3 in N. discriminate. }
  now rewrite M, M1.
Defined.

Lemma webhdfs_req_exec_outcome_witness :
  fst (fst (Demo.exec true Demo.network_refused Demo.upload_req
              WEBHDFS_REQ_PUT)) = 1
  /\ rcode string
       (w_req string
          (snd (Demo.exec true Demo.network_refused Demo.upload_req
                  WEBHDFS_REQ_PUT)))
     = response_code
         (Demo.network_refused
            (last (performs_of
                     (w_trace string
                        (snd (Demo.exec true Demo.network_refused
                                Demo.upload_req WEBHDFS_REQ_PUT))))
               fresh_handle))
  /\ upload string
       (w_req string
          (snd (Demo.exec true Demo.network_refused Demo.upload_req
                  WEBHDFS_REQ_PUT)))
     = upload string Demo.upload_req.
Proof.
  split; [reflexivity |].
  exact (proj2 (proj2 (webhdfs_req_exec_outcome Demo.libc_format Demo.alloc_ok
      Demo.ENOMEM
                         Demo.ENOMEM_nonzero string true Demo.network_refused
                         Demo.curl_easy_strerror Demo.upload_req
                         WEBHDFS_REQ_PUT None eq_refl))).
Defined.

Lemma webhdfs_req_exec_message_bound_witness :
  fst (fst Demo.partial_get) <> 0
  /\ snd (fst Demo.partial_get)
     = Some "Transferred a partial file (url: <html>)"
  /\ (String.length "Transferred a partial file (url: <html>)" <= 511)%nat
  /\ exists (before : list event) (h : CURL) (evs : list event),
       w_trace string (snd Demo.partial_get)
       = (before ++ EvPerform h :: evs)%list
       /\ Forall (callback_event_of h) evs
       /\ transfer_code (Demo.network_partial h) evs <> 0
       /\ ((String.length
              (Demo.curl_easy_strerror
                 (transfer_code (Demo.network_partial h) evs))
            + String.length
                (blob_text
                   (buffer string (w_req string (snd Demo.partial_get))))
            <= 503)%nat ->
           "Transferred a partial file (url: <html>)"
           = Demo.curl_easy_strerror
               (transfer_code (Demo.network_partial h) evs)
             ++ " (url: "
             ++ blob_text
                  (buffer string (w_req string (snd Demo.partial_get)))
             ++ ")").
Proof.
  assert (N : fst (fst Demo.partial_get) <> 0) by discriminate.
  split; [exact N |]. split; [reflexivity |].
  exact (webhdfs_req_exec_message_bound Demo.libc_format Demo.alloc_ok
           Demo.ENOMEM Demo.ENOMEM_nonzero string true Demo.network_partial
           Demo.curl_easy_strerror Demo.create_req WEBHDFS_REQ_GET None
           eq_refl (fst (fst Demo.partial_get))
           "Transferred a partial file (url: <html>)"
           (snd Demo.partial_get) eq_refl N).
Defined.

Lemma webhdfs_req_open_any_path_witness :
  (None <> Some EmptyString
   /\ blob (buffer string
               (snd (webhdfs_req_open Demo.libc_format Demo.past_terminator
                       Demo.alloc_ok Demo.ENOMEM string Demo.blank
                       {| conf := Demo.plain_conf |} None)))
      = "http://nn:50070/webhdfs/v1/?user.name=hdfs&")
  /\ (Some "data/f" <> Some EmptyString
      /\ blob (buffer string
                  (snd (webhdfs_req_open Demo.libc_format Demo.past_terminator
                          Demo.alloc_ok Demo.ENOMEM string Demo.blank
                          {| conf := Demo.plain_conf |} (Some "data/f"))))
         = "http://nn:50070/webhdfs/v1/ata/f?user.name=hdfs&").
Proof.
  assert (N1 : @None string <> Some EmptyString) by discriminate.
  assert (N2 : Some "data/f" <> Some EmptyString) by discriminate.
  split; (split; [assumption |]).
  - exact (webhdfs_req_open_any_path Demo.libc_format Demo.past_terminator
             Demo.alloc_ok Demo.ENOMEM Demo.ENOMEM_nonzero string Demo.blank
             {| conf := Demo.plain_conf |} None N1 0 _ eq_refl eq_refl).
  - exact (webhdfs_req_open_any_path Demo.libc_format Demo.past_terminator
             Demo.alloc_ok Demo.ENOMEM Demo.ENOMEM_nonzero string Demo.blank
             {| conf := Demo.plain_conf |} (Some "data/f") N2 0 _ eq_refl
             eq_refl).
Defined.

(** On the empty path the code reads past the terminator: what it puts
    in the URL is whatever the memory holds there. *)
Example open_empty_path :
  blob (buffer string
          (snd (webhdfs_req_open Demo.libc_format Demo.past_terminator
                  Demo.alloc_ok Demo.ENOMEM string Demo.blank
                  {| conf := Demo.plain_conf |} (Some EmptyString))))
  = "http://nn:50070/webhdfs/v1/PATH=/usr/bin?user.name=hdfs&".
Proof. reflexivity. Qed.

Lemma webhdfs_req_open_fresh_witness :
  rcode string
    (w_req string
       (snd (Demo.exec true Demo.network Demo.upload_req WEBHDFS_REQ_PUT)))
  = rcode string (set_rcode string Demo.blank 201)
  /\ webhdfs_req_open Demo.libc_format Demo.past_terminator Demo.alloc_ok
      Demo.ENOMEM string
       (w_req string
          (snd (Demo.exec true Demo.network Demo.upload_req WEBHDFS_REQ_PUT)))
       {| conf := Demo.plain_conf |} (Some "/tmp/g")
     = webhdfs_req_open Demo.libc_format Demo.past_terminator Demo.alloc_ok
         Demo.ENOMEM string
         (set_rcode string Demo.blank 201)
         {| conf := Demo.plain_conf |} (Some "/tmp/g").
Proof.
  split; [reflexivity |].
  exact (proj1 (webhdfs_req_open_fresh Demo.libc_format Demo.past_terminator
      Demo.alloc_ok Demo.ENOMEM string
                  (w_req string
                     (snd (Demo.exec true Demo.network Demo.upload_req
                             WEBHDFS_REQ_PUT)))
                  (set_rcode string Demo.blank 201)
                  {| conf := Demo.plain_conf |} (Some "/tmp/g") eq_refl)).
Defined.

Lemma webhdfs_req_open_out_of_memory_witness :
  (forall k, Demo.out_of_memory k = false)
  /\ webhdfs_req_open Demo.libc_format Demo.past_terminator Demo.out_of_memory
      Demo.ENOMEM string Demo.upload_req
       {| conf := Demo.plain_conf |} (Some "/tmp/f")
     = (12, Demo.blank).
Proof.
  split; [reflexivity |].
  exact (proj1 (webhdfs_req_open_out_of_memory Demo.libc_format
      Demo.past_terminator Demo.out_of_memory Demo.ENOMEM
                  Demo.ENOMEM_nonzero string Demo.upload_req
                  {| conf := Demo.plain_conf |} (Some "/tmp/f")
                  (fun _ => eq_refl))).
Defined.

Lemma webhdfs_req_set_args_appends_witness :
  exists b,
    snd (webhdfs_req_set_args Demo.libc_format Demo.alloc_ok Demo.ENOMEM string
        Demo.opened
           "op=%s&overwrite=%s" [va_str "CREATE"; va_str "true"])
    = set_buffer string Demo.opened b
    /\ blob b = Demo.nn_url.
Proof.
  destruct (webhdfs_req_set_args_appends Demo.libc_format Demo.alloc_ok
      Demo.ENOMEM
              Demo.ENOMEM_nonzero string Demo.opened "op=%s&overwrite=%s"
              [va_str "CREATE"; va_str "true"]) as (b & E & G & _).
  exists b. split; [exact E |]. exact (G (fun _ => eq_refl)).
Defined.

(** A directive [vsprintf] leaves to the C library. *)
Example set_args_octal :
  blob (buffer string
          (snd (webhdfs_req_set_args Demo.libc_format Demo.alloc_ok
                  Demo.ENOMEM string Demo.opened "op=%s&permission=%o"
                  [va_str "MKDIRS"; va_int 493])))
  = "http://nn:50070/webhdfs/v1/tmp/f?user.name=hdfs&op=MKDIRS&permission=755".
Proof. reflexivity. Qed.

Lemma open_set_args_exec_target_witness :
  exists h,
    performs_of
      (w_trace string
         (snd (Demo.exec true Demo.network Demo.create_req WEBHDFS_REQ_GET)))
    = [h]
    /\ url_of (options h) = Some Demo.nn_url.
Proof.
  destruct (open_set_args_exec_target Demo.libc_format Demo.past_terminator
      Demo.alloc_ok Demo.ENOMEM
              Demo.ENOMEM_nonzero string true Demo.network
              Demo.curl_easy_strerror Demo.blank {| conf := Demo.plain_conf |}
              "tmp/f" "op=%s&overwrite=%s" [va_str "CREATE"; va_str "true"]
              WEBHDFS_REQ_GET None eq_refl (fun _ => eq_refl))
    as (h & P & L & _).
  exists h. split; [exact P | exact L].
Defined.

Lemma webhdfs_req_json_response_document_witness :
  fst (webhdfs_req_json_response Demo.libc_format string unit
      Demo.yajl_tree_parse
         (set_buffer string Demo.blank {| blob := "{}"; capacity := 2; behind :=
             Some "{}" |}))
  = Some tt
  /\ snd (webhdfs_req_json_response Demo.libc_format string unit
      Demo.yajl_tree_parse
            (set_buffer string Demo.blank {| blob := "{}"; capacity := 2; behind
                := Some "{}" |}))
     = [].
Proof.
  destruct (webhdfs_req_json_response_document Demo.libc_format string unit
              Demo.yajl_tree_parse
              (set_buffer string Demo.blank {| blob := "{}"; capacity := 2;
                  behind := Some "{}" |}))
    as (D & N & _).
  assert (H : fst (webhdfs_req_json_response Demo.libc_format string unit
      Demo.yajl_tree_parse
                     (set_buffer string Demo.blank
                        {| blob := "{}"; capacity := 2; behind := Some "{}" |}))
                            = Some tt).
  { apply D. split; [discriminate | reflexivity]. }
  split; [exact H | exact (N tt H)].
Defined.

Lemma plain_exec_append_failure_witness :
  capacity (buffer string Demo.create_req) = 72
  /\ CStr.len Demo.flood = 80
  /\ Demo.only_512 80 = false
  /\ fst (fst (webhdfs_req_exec Demo.libc_format Demo.only_512 Demo.ENOMEM
      string true
                 Demo.network_flood Demo.curl_easy_strerror Demo.create_req
                 WEBHDFS_REQ_GET None)) = 1
  /\ blob (buffer string
             (w_req string
                (snd (webhdfs_req_exec Demo.libc_format Demo.only_512
                    Demo.ENOMEM string true
                        Demo.network_flood Demo.curl_easy_strerror
                        Demo.create_req WEBHDFS_REQ_GET None))))
     = EmptyString
  /\ snd (fst (webhdfs_req_exec Demo.libc_format Demo.only_512 Demo.ENOMEM
      string true
                 Demo.network_flood Demo.curl_easy_strerror Demo.create_req
                 WEBHDFS_REQ_GET None))
     = Some ("Failed writing received data to disk/application (url: "
             ++ Demo.nn_url ++ ")").
Proof.
  split; [reflexivity |]. split; [reflexivity |]. split; [reflexivity |].
  refine (plain_exec_append_failure Demo.libc_format Demo.only_512 Demo.ENOMEM
            Demo.ENOMEM_nonzero string true Demo.network_flood
            Demo.curl_easy_strerror Demo.create_req WEBHDFS_REQ_GET None
            Demo.flood eq_refl eq_refl
            (fun _ => ex_intro _ [Deliver "tail"] eq_refl) _ _ eq_refl).
  - split; [reflexivity | discriminate].
  - reflexivity.
Defined.

Lemma set_upload_decides_phases_witness :
  length (performs_of
            (w_trace string
               (snd (Demo.exec true Demo.network
                       (snd (webhdfs_req_set_upload string Demo.upload_req
                               None (Some "hello world")))
                       WEBHDFS_REQ_PUT)))) = 1%nat
  /\ length (performs_of
               (w_trace string
                  (snd (Demo.exec true Demo.network
                          (snd (webhdfs_req_set_upload string Demo.create_req
                                  (Some Demo.producer) None))
                          WEBHDFS_REQ_PUT)))) = 2%nat.
Proof.
  split.
  - exact (proj1 (proj2 (set_upload_decides_phases Demo.libc_format
      Demo.alloc_ok Demo.ENOMEM
                           Demo.ENOMEM_nonzero string true Demo.network
                           Demo.curl_easy_strerror Demo.upload_req None
                           (Some "hello world") WEBHDFS_REQ_PUT None
                           eq_refl))).
  - exact (proj1 (proj2 (set_upload_decides_phases Demo.libc_format
      Demo.alloc_ok Demo.ENOMEM
                           Demo.ENOMEM_nonzero string true Demo.network
                           Demo.curl_easy_strerror Demo.create_req
                           (Some Demo.producer) None WEBHDFS_REQ_PUT None
                           eq_refl))).
Defined.

Lemma plain_exec_response_body_witness :
  upload string Demo.create_req = None
  /\ exists h,
       performs_of
         (w_trace string
            (snd (Demo.exec true (Demo.network_with Demo.datanode_status)
                    Demo.create_req WEBHDFS_REQ_GET))) = [h]
       /\ blob (buffer string
                  (w_req string
                     (snd (Demo.exec true
                             (Demo.network_with Demo.datanode_status)
                             Demo.create_req WEBHDFS_REQ_GET))))
          = delivered (actions (Demo.network_with Demo.datanode_status h))
       /\ (fst (fst (Demo.exec true (Demo.network_with Demo.datanode_status)
                       Demo.create_req WEBHDFS_REQ_GET)) = 0
           <-> result (Demo.network_with Demo.datanode_status h) = 0).
Proof.
  split; [reflexivity |].
  exact (plain_exec_response_body Demo.libc_format Demo.alloc_ok Demo.ENOMEM
           Demo.ENOMEM_nonzero string true
           (Demo.network_with Demo.datanode_status) Demo.curl_easy_strerror
           Demo.create_req WEBHDFS_REQ_GET None eq_refl eq_refl
           (fun _ => eq_refl)
           (fun h => Demo.network_chunks_fit Demo.datanode_status h eq_refl)).
Defined.
